(** * Precinct lookup (ArcgisJP.py): a shallow embedding and its properties

    The program reads four address fields from a Tk form, geocodes the
    address, queries one ArcGIS feature service with the point, and shows
    the first feature's attributes in a dialog.

    The embedding has three layers:
    - [Py]: the Python built-ins the script relies on (str.strip, str.join,
      truth values, str() and repr() of parsed JSON, dict.get, subscripts);
    - a small monad [M] threading the visible effects (service calls and
      dialogs) and Python exceptions;
    - the two functions of the script, [query_precinct] and
      [get_precinct_info].

    Conventions.  A Python [str] is a [string] whose characters are code
    points below 256.  A [dict] is the list of its items in insertion
    order, looked up from the front.  A Python [float] is kept as the text
    [repr] gives for it: the script only prints floats and tests them for
    truth.  [logging] calls write to stderr only and are left out. *)

From Stdlib Require Import String Ascii List ZArith Bool Lia DecimalString.
Import ListNotations.
Local Open Scope list_scope.
Local Open Scope string_scope.
Set Warnings "-register-all".

(** ** Python built-ins *)

Module Py.

(** The line feed, written [\n] in the source. *)
Definition nl : string := String (ascii_of_nat 10) EmptyString.

(** [str.isspace] on one character: the code points below 256 that Python
    treats as whitespace. *)
Definition is_space (c : ascii) : bool :=
  let n := nat_of_ascii c in
  (((9 <=? n) && (n <=? 13)) || ((28 <=? n) && (n <=? 32))
   || (n =? 133) || (n =? 160))%nat.

Fixpoint lstrip (s : string) : string :=
  match s with
  | EmptyString => EmptyString
  | String c s' => if is_space c then lstrip s' else s
  end.

(** [rstrip] drops the trailing run of whitespace: a character is dropped
    when it is whitespace and nothing is left after it. *)
Fixpoint rstrip (s : string) : string :=
  match s with
  | EmptyString => EmptyString
  | String c s' =>
      match rstrip s' with
      | EmptyString => if is_space c then EmptyString else String c EmptyString
      | r => String c r
      end
  end.

(** [s.strip()] *)
Definition strip (s : string) : string := rstrip (lstrip s).

(** [sep.join(parts)] on parts already known to be strings. *)
Fixpoint join (sep : string) (parts : list string) : string :=
  match parts with
  | [] => ""
  | [p] => p
  | p :: rest => p ++ sep ++ join sep rest
  end.

(** Every character of [s] is whitespace (true of the empty string). *)
Fixpoint whitespace_only (s : string) : bool :=
  match s with
  | EmptyString => true
  | String c s' => is_space c && whitespace_only s'
  end.

Fixpoint occurs_char (c : ascii) (s : string) : bool :=
  match s with
  | EmptyString => false
  | String d s' => Ascii.eqb c d || occurs_char c s'
  end.

(** ** Values produced by [response.json()] *)

Inductive json : Type :=
| JNull
| JBool (b : bool)
| JInt (n : Z)
| JFloat (repr : string)
| JStr (s : string)
| JList (items : list json)
| JDict (items : list (string * json)).

Definition dict := list (string * json).

(** The truth value Python gives a value in [if], [not] and [filter(None, _)]. *)
Definition truthy (v : json) : bool :=
  match v with
  | JNull => false
  | JBool b => b
  | JInt n => negb (n =? 0)%Z
  | JFloat r => negb ((r =? "0.0") || (r =? "-0.0"))
  | JStr s => negb (s =? "")
  | JList l => match l with [] => false | _ => true end
  | JDict d => match d with [] => false | _ => true end
  end.

(** [str(n)] for an int. *)
Definition str_of_int (n : Z) : string := NilZero.string_of_int (Z.to_int n).

Definition hex_digit (n : nat) : ascii :=
  if (n <? 10)%nat then ascii_of_nat (48 + n) else ascii_of_nat (87 + n).

(** [isprintable] on a code point below 256 that is 127 or more. *)
Definition high_printable (n : nat) : bool :=
  ((161 <=? n) && negb (n =? 173))%nat.

(** One character inside [repr] of a string quoted with [quote]. *)
Definition repr_char (quote : ascii) (c : ascii) : string :=
  let n := nat_of_ascii c in
  if Ascii.eqb c quote || (n =? 92)%nat then
    String (ascii_of_nat 92) (String c "")
  else if (n =? 9)%nat then String (ascii_of_nat 92) "t"
  else if (n =? 10)%nat then String (ascii_of_nat 92) "n"
  else if (n =? 13)%nat then String (ascii_of_nat 92) "r"
  else if ((n <? 32) || ((127 <=? n) && negb (high_printable n)))%nat then
    String (ascii_of_nat 92)
      (String "x" (String (hex_digit (n / 16)) (String (hex_digit (n mod 16)) "")))
  else String c "".

Fixpoint repr_chars (quote : ascii) (s : string) : string :=
  match s with
  | EmptyString => ""
  | String c s' => repr_char quote c ++ repr_chars quote s'
  end.

Definition dquote : ascii := ascii_of_nat 34.

(** [repr(s)] for a string: single quotes, unless the string has a single
    quote and no double quote. *)
Definition str_repr (s : string) : string :=
  let quote :=
    if occurs_char "'" s && negb (occurs_char dquote s) then dquote
    else "'"%char in
  String quote (repr_chars quote s) ++ String quote "".

(** [repr(v)] *)
Fixpoint repr (v : json) : string :=
  match v with
  | JNull => "None"
  | JBool true => "True"
  | JBool false => "False"
  | JInt n => str_of_int n
  | JFloat r => r
  | JStr s => str_repr s
  | JList l => "[" ++ join ", " (map repr l) ++ "]"
  | JDict d =>
      "{" ++ join ", "
               (map (fun kv => match kv with
                               | (k, x) => str_repr k ++ ": " ++ repr x
                               end) d) ++ "}"
  end.

(** [str(v)], which is also what an f-string field [{v}] renders. *)
Definition str (v : json) : string :=
  match v with
  | JStr s => s
  | _ => repr v
  end.

(** ** Exceptions *)

Inductive exn : Type :=
| ValueError (msg : string)
| AttributeError
| TypeError
| KeyError
| IndexError.

Inductive outcome (A : Type) : Type :=
| Ok (a : A)
| Raise (e : exn).
Arguments Ok {A} a.
Arguments Raise {A} e.

(** ** Dictionaries and subscripts *)

Fixpoint lookup (d : dict) (key : string) : option json :=
  match d with
  | [] => None
  | (k, v) :: d' => if k =? key then Some v else lookup d' key
  end.

(** [obj.get(key, default)]: only a dict has the method. *)
Definition get (obj : json) (key : string) (default : json) : outcome json :=
  match obj with
  | JDict d =>
      match lookup d key with
      | Some v => Ok v
      | None => Ok default
      end
  | _ => Raise AttributeError
  end.

(** [obj[0]] *)
Definition item0 (obj : json) : outcome json :=
  match obj with
  | JList (x :: _) => Ok x
  | JList [] => Raise IndexError
  | JStr (String c _) => Ok (JStr (String c ""))
  | JStr EmptyString => Raise IndexError
  | JDict _ => Raise KeyError
  | _ => Raise TypeError
  end.

(** [obj[key]] for a string key. *)
Definition item (obj : json) (key : string) : outcome json :=
  match obj with
  | JDict d =>
      match lookup d key with
      | Some v => Ok v
      | None => Raise KeyError
      end
  | _ => Raise TypeError
  end.

(** [sep.join(values)]: every value has to be a [str]. *)
Fixpoint as_strings (values : list json) : outcome (list string) :=
  match values with
  | [] => Ok []
  | JStr s :: rest =>
      match as_strings rest with
      | Ok l => Ok (s :: l)
      | Raise e => Raise e
      end
  | _ :: _ => Raise TypeError
  end.

Definition join_values (sep : string) (values : list json) : outcome string :=
  match as_strings values with
  | Ok l => Ok (join sep l)
  | Raise e => Raise e
  end.

End Py.

Import Py.

(** ** Effects: service calls and dialogs *)

(** What [geolocator.geocode] hands back: a point, nothing, or a
    [GeocoderServiceError] carrying its text. *)
Record location : Type := Location { latitude : string; longitude : string }.

Inductive geocoded : Type :=
| GeocoderServiceError (text : string)
| NoLocation
| Found (loc : location).

(** What [requests.get], [raise_for_status] and [response.json()] yield
    together: the parsed body, or a [RequestException] carrying its text.
    An exception of another class out of that block is not part of this
    type; the statements below that speak of every submission claim nothing
    that depends on its absence. *)
Inductive response : Type :=
| RequestException (text : string)
| Json (data : json).

(** The two remote services, as deterministic functions of the request. *)
Record services : Type := Services {
  geocode : string -> geocoded;
  http_get : string -> list (string * string) -> response
}.

Inductive event : Type :=
| Geocode (query : string)
| HttpGet (url : string) (params : list (string * string))
| ShowError (title message : string)
| ShowInfo (title message : string).

Definition trace := list event.

(** Computations that append to the trace and either return or raise. *)
Definition M (A : Type) : Type := trace -> outcome A * trace.

Definition ret {A} (a : A) : M A := fun t => (Ok a, t).

Definition raise {A} (e : exn) : M A := fun t => (Raise e, t).

Definition bind {A B} (m : M A) (k : A -> M B) : M B :=
  fun t =>
    match m t with
    | (Ok a, t') => k a t'
    | (Raise e, t') => (Raise e, t')
    end.

Definition emit (e : event) : M unit := fun t => (Ok tt, (t ++ [e])%list).

Definition lift {A} (o : outcome A) : M A := fun t => (o, t).

(** [try: body  except ValueError as e: handler(str(e))] *)
Definition except_ValueError {A} (body : M A) (handler : string -> M A) : M A :=
  fun t =>
    match body t with
    | (Raise (ValueError msg), t') => handler msg t'
    | r => r
    end.

Declare Scope M_scope.
Delimit Scope M_scope with M.
Notation "x <- m ;; k" := (bind m (fun x => k))
  (at level 61, m at next level, right associativity) : M_scope.
Notation "m ;; k" := (bind m (fun _ => k))
  (at level 61, right associativity) : M_scope.

Declare Scope outcome_scope.
Delimit Scope outcome_scope with outcome.
Notation "x <- m ;; k" :=
  (match m with Ok x => k | Raise e => Raise e end)
  (at level 61, m at next level, right associativity) : outcome_scope.

Definition showerror (title message : string) : M unit :=
  emit (ShowError title message).

Definition showinfo (title message : string) : M unit :=
  emit (ShowInfo title message).

(** ** The script *)

Definition arcgis_url : string :=
  "https://services1.arcgis.com/Z3qsB1OAIjFLs23T/ArcGIS/rest/services/"
  ++ "JP_Precincts_20181129/FeatureServer/0/query".

Definition query_params (lat lon : string) : list (string * string) :=
  [ ("f", "json");
    ("geometryType", "esriGeometryPoint");
    ("geometry", "{x:" ++ lon ++ ",y:" ++ lat ++ "}");
    ("spatialRel", "esriSpatialRelIntersects");
    ("inSR", "4326");
    ("outFields", "*");
    ("returnGeometry", "false");
    ("outSR", "4326") ].

Definition full_address (street_address city state zip_code : string) : string :=
  street_address ++ ", " ++ city ++ ", " ++ state ++ " " ++ zip_code.

(** [query_precinct], lines 23-87. *)
Definition query_precinct (w : services)
    (street_address city state zip_code : string) : M json :=
  (let address := full_address street_address city state zip_code in
   emit (Geocode address) ;;
   match geocode w address with
   | GeocoderServiceError e => raise (ValueError ("Geocoding error: " ++ e))
   | NoLocation => raise (ValueError "Address could not be geocoded.")
   | Found location =>
       let lat := latitude location in
       let lon := longitude location in
       let params := query_params lat lon in
       emit (HttpGet arcgis_url params) ;;
       match http_get w arcgis_url params with
       | RequestException e => raise (ValueError ("Error querying ArcGIS: " ++ e))
       | Json data =>
           features <- lift (get data "features" (JList [])) ;;
           if negb (truthy features) then raise (ValueError "No precinct found.")
           else
             first <- lift (item0 features) ;;
             lift (item first "attributes")
       end
   end)%M.

(** The f-string of lines 133-139 as a template over its eight rendered
    fields. *)
Definition layout
    (number name address city state zip phone website : string) : string :=
  "Precinct Number: " ++ number ++ nl
  ++ "Judge: " ++ name ++ nl
  ++ "Address: " ++ address ++ ", " ++ city ++ ", " ++ state ++ " " ++ zip ++ nl
  ++ "Phone: " ++ phone ++ nl
  ++ "Website: " ++ website.

Definition website_url (number : string) : string :=
  "https://www.dallascounty.org/government/jpcourts/" ++ number ++ "/".

(** The text of the local [results], lines 113-139 of [get_precinct_info]. *)
Definition format_results (precinct_info : json) : outcome string :=
  (precinct_number <- get precinct_info "PRECINCT" JNull ;;
   title <- get precinct_info "TITLE1" (JStr "") ;;
   firstname <- get precinct_info "FIRSTNAME1" (JStr "") ;;
   lastname <- get precinct_info "LASTNAME1" (JStr "") ;;
   joined <- join_values " " (filter truthy [title; firstname; lastname]) ;;
   let judge_full_name := strip joined in
   address_line <- get precinct_info "ADDRESS1" (JStr "Address Not Found") ;;
   city_arc <- get precinct_info "CITY1" (JStr "City Not Found") ;;
   state_arc <- get precinct_info "STATE1" (JStr "State Not Found") ;;
   zip_arc <- get precinct_info "ZIP1" (JStr "ZIP Not Found") ;;
   phone <- get precinct_info "TEL1" (JStr "Phone Not Found") ;;
   let website :=
     match precinct_number with
     | JNull => "Website Not Found"
     | _ => website_url (str precinct_number)
     end in
   Ok (layout
         match precinct_number with
         | JNull => "Not Found"
         | _ => str precinct_number
         end
         (if judge_full_name =? "" then "Not Found" else judge_full_name)
         (str address_line) (str city_arc) (str state_arc) (str zip_arc)
         (str phone)
         website))%outcome.

(** The four entry widgets of the form, by their current text. *)
Record form : Type := Form {
  street_entry : string;
  city_entry : string;
  state_entry : string;
  zip_entry : string
}.

(** [all(strings)]: every string is non-empty. *)
Definition all (fields : list string) : bool :=
  forallb (fun s => negb (s =? "")) fields.

(** [get_precinct_info], lines 90-141. *)
Definition get_precinct_info (w : services) (gui : form) : M unit :=
  (let street_address := strip (street_entry gui) in
   let city := strip (city_entry gui) in
   let state := strip (state_entry gui) in
   let zip_code := strip (zip_entry gui) in
   if negb (all [street_address; city; state; zip_code]) then
     showerror "Input Error" "Please fill in all address fields."
   else
     looked_up <-
       except_ValueError
         (precinct_info <- query_precinct w street_address city state zip_code ;;
          ret (Some precinct_info))
         (fun message => showerror "Lookup Error" message ;; ret None) ;;
     match looked_up with
     | None => ret tt
     | Some precinct_info =>
         results <- lift (format_results precinct_info) ;;
         showinfo "Precinct Information" results
     end)%M.

(** ** Vocabulary of the statements *)

(** Some field of the form is blank: empty or whitespace only. *)
Definition blank_field (gui : form) : bool :=
  whitespace_only (street_entry gui) || whitespace_only (city_entry gui)
  || whitespace_only (state_entry gui) || whitespace_only (zip_entry gui).

(** The events that reach a remote service. *)
Definition is_network_call (e : event) : bool :=
  match e with
  | Geocode _ | HttpGet _ _ => true
  | ShowError _ _ | ShowInfo _ _ => false
  end.

Definition network_calls (t : trace) : list event := filter is_network_call t.

(** The address the geocoder is asked about for a form. *)
Definition submitted_address (gui : form) : string :=
  full_address (strip (street_entry gui)) (strip (city_entry gui))
               (strip (state_entry gui)) (strip (zip_entry gui)).

(** The events of a lookup in which both services answered. *)
Definition both_calls (gui : form) (loc : location) : list event :=
  [Geocode (submitted_address gui);
   HttpGet arcgis_url (query_params (latitude loc) (longitude loc))].

(** Sample data for the worked examples. *)
Definition dallas : location := Location "32.7767" "-96.797".

Definition one_feature : json :=
  JDict [("features",
          JList [JDict [("attributes", JDict [("PRECINCT", JStr "3")])]])].

Definition two_features : json :=
  JDict [("features",
          JList [JDict [("attributes", JDict [("PRECINCT", JStr "3")])];
                 JDict [("attributes", JDict [("PRECINCT", JStr "5")])]])].

(** The feature of the worked example. *)
Definition jane_doe : json :=
  JDict [("PRECINCT", JStr "3"); ("TITLE1", JStr "Judge");
         ("FIRSTNAME1", JStr "Jane"); ("LASTNAME1", JStr "Doe");
         ("ADDRESS1", JStr "100 Main St"); ("CITY1", JStr "Dallas");
         ("STATE1", JStr "TX"); ("ZIP1", JStr "75201");
         ("TEL1", JStr "214-555-0100")].

Definition jane_doe_summary : string :=
  "Precinct Number: 3" ++ nl
  ++ "Judge: Judge Jane Doe" ++ nl
  ++ "Address: 100 Main St, Dallas, TX 75201" ++ nl
  ++ "Phone: 214-555-0100" ++ nl
  ++ "Website: https://www.dallascounty.org/government/jpcourts/3/".

(** A computation that never reads the trace: run after [t], it returns
    what it returns on the empty trace and appends the same events. *)
Definition appends_only {A} (m : M A) : Prop :=
  forall t, m t = (fst (m []), (t ++ snd (m []))%list).

Definition mock : services :=
  Services (fun _ => Found dallas)
    (fun _ _ =>
       Json (JDict [("features", JList [JDict [("attributes", jane_doe)]])])).

Definition main_street : form := Form "100 Main St" "Dallas" "TX" "75201".

(** A name value the join accepts or the filter drops: absent, a string, or
    null. *)
Definition name_value_ok (d : dict) (key : string) : bool :=
  match lookup d key with
  | None | Some (JStr _) | Some JNull => true
  | Some _ => false
  end.

Definition name_values_ok (d : dict) : bool :=
  name_value_ok d "TITLE1" && name_value_ok d "FIRSTNAME1"
  && name_value_ok d "LASTNAME1".

(** The part a name attribute contributes: its text when it is a non-empty
    string, nothing otherwise. *)
Definition name_part (d : dict) (key : string) : list string :=
  match lookup d key with
  | Some (JStr s) => if s =? "" then [] else [s]
  | _ => []
  end.

(** The official's name in the spec's words: title, first and last name,
    empty parts skipped, joined by single spaces. *)
Definition spec_official_name (d : dict) : string :=
  join " " (name_part d "TITLE1" ++ name_part d "FIRSTNAME1"
            ++ name_part d "LASTNAME1")%list.

(** What [obj.get(key, default)] evaluates to on a dict. *)
Definition get_or (d : dict) (key : string) (default : json) : json :=
  match lookup d key with
  | Some v => v
  | None => default
  end.

(** The last character of a string, if it has one. *)
Fixpoint last_char (s : string) : option ascii :=
  match s with
  | EmptyString => None
  | String c EmptyString => Some c
  | String _ s' => last_char s'
  end.

(** What [filter(None, _)] followed by the join keeps of one value that is
    a string or null. *)
Definition text_of (v : json) : list string :=
  match v with
  | JStr s => if s =? "" then [] else [s]
  | _ => []
  end.

Definition str_or_null (v : json) : bool :=
  match v with
  | JStr _ | JNull => true
  | _ => false
  end.

(** The feature of the worked example without its title. *)
Definition jane_doe_untitled : dict :=
  [("PRECINCT", JStr "3");
   ("FIRSTNAME1", JStr "Jane"); ("LASTNAME1", JStr "Doe");
   ("ADDRESS1", JStr "100 Main St"); ("CITY1", JStr "Dallas");
   ("STATE1", JStr "TX"); ("ZIP1", JStr "75201");
   ("TEL1", JStr "214-555-0100")].

(** Lines 82-87 of [query_precinct]: what is taken out of the parsed body. *)
Definition first_attributes (data : json) : outcome json :=
  match get data "features" (JList []) with
  | Ok features =>
      if truthy features then
        match item0 features with
        | Ok first => item first "attributes"
        | Raise e => Raise e
        end
      else Raise (ValueError "No precinct found.")
  | Raise e => Raise e
  end.

Definition is_object (v : json) : bool :=
  match v with
  | JDict _ => true
  | _ => false
  end.

Definition is_list (v : json) : bool :=
  match v with
  | JList _ => true
  | _ => false
  end.

(** The events that open a dialog. *)
Definition is_dialog (e : event) : bool :=
  match e with
  | ShowError _ _ | ShowInfo _ _ => true
  | Geocode _ | HttpGet _ _ => false
  end.

Definition dialogs (t : trace) : list event := filter is_dialog t.

(** A value [filter(None, _)] drops or [str.join] accepts. *)
Definition joinable (v : json) : bool :=
  match v with
  | JStr _ => true
  | _ => negb (truthy v)
  end.

Definition name_joinable (d : dict) : bool :=
  joinable (get_or d "TITLE1" (JStr ""))
  && joinable (get_or d "FIRSTNAME1" (JStr ""))
  && joinable (get_or d "LASTNAME1" (JStr "")).

(** The nine attributes the summary is built from. *)
Definition summary_keys : list string :=
  ["PRECINCT"; "TITLE1"; "FIRSTNAME1"; "LASTNAME1";
   "ADDRESS1"; "CITY1"; "STATE1"; "ZIP1"; "TEL1"].

(** The ways one submission of [gui] against [w] can go: how it ends and
    the events it adds.  An exception that escapes is only said not to be a
    ValueError. *)
Inductive submission (w : services) (gui : form) :
    outcome unit -> list event -> Prop :=
| rejected :
    blank_field gui = true ->
    submission w gui (Ok tt)
      [ShowError "Input Error" "Please fill in all address fields."]
| geocoding_failed (text : string) :
    blank_field gui = false ->
    (forall loc, geocode w (submitted_address gui) <> Found loc) ->
    submission w gui (Ok tt)
      [Geocode (submitted_address gui); ShowError "Lookup Error" text]
| query_failed (loc : location) (text : string) :
    blank_field gui = false ->
    geocode w (submitted_address gui) = Found loc ->
    submission w gui (Ok tt)
      (both_calls gui loc ++ [ShowError "Lookup Error" text])%list
| summarised (loc : location) (data precinct_info : json) (results : string) :
    blank_field gui = false ->
    geocode w (submitted_address gui) = Found loc ->
    http_get w arcgis_url (query_params (latitude loc) (longitude loc))
    = Json data ->
    first_attributes data = Ok precinct_info ->
    format_results precinct_info = Ok results ->
    submission w gui (Ok tt)
      (both_calls gui loc ++ [ShowInfo "Precinct Information" results])%list
| crashed (loc : location) (e : exn) :
    blank_field gui = false ->
    geocode w (submitted_address gui) = Found loc ->
    (forall message, e <> ValueError message) ->
    submission w gui (Raise e) (both_calls gui loc).

(** * Properties *)

(** ** Trimming *)

Lemma lstrip_empty_iff (s : string) :
  lstrip s = "" <-> whitespace_only s = true.
Proof.
  induction s as [|c s IH]; simpl.
  - split; reflexivity.
  - destruct (is_space c); simpl.
    + exact IH.
    + split; discriminate.
Qed.

Lemma lstrip_head (s : string) (c : ascii) (r : string) :
  lstrip s = String c r -> is_space c = false.
Proof.
  induction s as [|d s IH]; simpl.
  - discriminate.
  - destruct (is_space d) eqn:Hd.
    + exact IH.
    + intros E. injection E as -> _. exact Hd.
Qed.

Lemma rstrip_keeps_text (c : ascii) (r : string) :
  is_space c = false -> rstrip (String c r) <> "".
Proof.
  intros Hc. simpl. destruct (rstrip r).
  - rewrite Hc. discriminate.
  - discriminate.
Qed.

(** A field trims to the empty string exactly when it holds nothing but
    whitespace. *)
Lemma strip_empty_iff (s : string) :
  strip s = "" <-> whitespace_only s = true.
Proof.
  unfold strip. rewrite <- lstrip_empty_iff.
  destruct (lstrip s) as [|c r] eqn:E.
  - split; reflexivity.
  - split; [|discriminate].
    intros H. exfalso.
    exact (rstrip_keeps_text c r (lstrip_head s c r E) H).
Qed.

Lemma strip_nonempty (s : string) :
  whitespace_only s = false -> (strip s =? "") = false.
Proof.
  intros H. apply String.eqb_neq. intros E.
  apply strip_empty_iff in E. congruence.
Qed.

Lemma strip_blank (s : string) :
  whitespace_only s = true -> (strip s =? "") = true.
Proof.
  intros H. apply String.eqb_eq. apply strip_empty_iff. exact H.
Qed.

(** The four trimmed fields pass [all] exactly when none of them is blank. *)
Lemma all_stripped (gui : form) :
  all [strip (street_entry gui); strip (city_entry gui);
       strip (state_entry gui); strip (zip_entry gui)]
  = negb (blank_field gui).
Proof.
  unfold all, blank_field. simpl.
  destruct (whitespace_only (street_entry gui)) eqn:H1;
    [rewrite (strip_blank _ H1); reflexivity | rewrite (strip_nonempty _ H1)].
  destruct (whitespace_only (city_entry gui)) eqn:H2;
    [rewrite (strip_blank _ H2); reflexivity | rewrite (strip_nonempty _ H2)].
  destruct (whitespace_only (state_entry gui)) eqn:H3;
    [rewrite (strip_blank _ H3); reflexivity | rewrite (strip_nonempty _ H3)].
  destruct (whitespace_only (zip_entry gui)) eqn:H4;
    [rewrite (strip_blank _ H4); reflexivity | rewrite (strip_nonempty _ H4)].
  reflexivity.
Qed.

(** ** Validation *)

(** C2: a form with a blank field (empty or whitespace only) gets the
    validation dialog and nothing else: the trace grows by that one dialog,
    so neither the geocoder nor the feature service is called. *)
Theorem blank_field_shows_input_error (w : services) (gui : form) (t : trace) :
  blank_field gui = true ->
  get_precinct_info w gui t
  = (Ok tt,
     (t ++ [ShowError "Input Error" "Please fill in all address fields."])%list)
  /\ network_calls (snd (get_precinct_info w gui [])) = [].
Proof.
  intros Hblank.
  assert (E : forall t0, get_precinct_info w gui t0
              = (Ok tt, (t0 ++ [ShowError "Input Error"
                                  "Please fill in all address fields."])%list)).
  { intros t0. unfold get_precinct_info.
    rewrite all_stripped, Hblank. reflexivity. }
  split.
  - apply E.
  - rewrite E. reflexivity.
Qed.

Lemma blank_field_shows_input_error_witness :
  blank_field (Form "100 Main St" "  " "TX" "75201") = true
  /\ get_precinct_info (Services (fun _ => NoLocation) (fun _ _ => Json JNull))
       (Form "100 Main St" "  " "TX" "75201") []
     = (Ok tt, [ShowError "Input Error" "Please fill in all address fields."]).
Proof.
  split.
  - reflexivity.
  - apply (blank_field_shows_input_error
             (Services (fun _ => NoLocation) (fun _ _ => Json JNull))
             (Form "100 Main St" "  " "TX" "75201") []).
    reflexivity.
Defined.

(** ** The lookup, case by case *)

(** What a submission with no blank field does, in terms of the lookup. *)
Lemma get_precinct_info_filled (w : services) (gui : form) (t : trace) :
  blank_field gui = false ->
  get_precinct_info w gui t
  = match query_precinct w (strip (street_entry gui)) (strip (city_entry gui))
            (strip (state_entry gui)) (strip (zip_entry gui)) t with
    | (Ok precinct_info, t') =>
        match format_results precinct_info with
        | Ok results =>
            (Ok tt, (t' ++ [ShowInfo "Precinct Information" results])%list)
        | Raise e => (Raise e, t')
        end
    | (Raise (ValueError message), t') =>
        (Ok tt, (t' ++ [ShowError "Lookup Error" message])%list)
    | (Raise e, t') => (Raise e, t')
    end.
Proof.
  intros Hfilled. unfold get_precinct_info.
  rewrite all_stripped, Hfilled. simpl.
  unfold bind, except_ValueError.
  destruct (query_precinct w _ _ _ _ t) as [[info|e] t'].
  - simpl. unfold lift, showinfo, emit.
    destruct (format_results info); reflexivity.
  - destruct e; reflexivity.
Qed.

Lemma query_precinct_no_location
    (w : services) (street_address city state zip_code : string) (t : trace) :
  geocode w (full_address street_address city state zip_code) = NoLocation ->
  query_precinct w street_address city state zip_code t
  = (Raise (ValueError "Address could not be geocoded."),
     (t ++ [Geocode (full_address street_address city state zip_code)])%list).
Proof.
  intros Hgeo. unfold query_precinct, bind, emit. simpl.
  rewrite Hgeo. reflexivity.
Qed.

(** The lookup once both services have answered: only the [features] entry
    of the body decides what happens next. *)
Lemma query_precinct_answered
    (w : services) (street_address city state zip_code : string)
    (loc : location) (data : json) (t : trace) :
  geocode w (full_address street_address city state zip_code) = Found loc ->
  http_get w arcgis_url (query_params (latitude loc) (longitude loc))
  = Json data ->
  query_precinct w street_address city state zip_code t
  = (match get data "features" (JList []) with
     | Ok features =>
         if truthy features then
           match item0 features with
           | Ok first => item first "attributes"
           | Raise e => Raise e
           end
         else Raise (ValueError "No precinct found.")
     | Raise e => Raise e
     end,
     (t ++ [Geocode (full_address street_address city state zip_code);
            HttpGet arcgis_url
              (query_params (latitude loc) (longitude loc))])%list).
Proof.
  intros Hgeo Hhttp. unfold query_precinct, bind, emit. simpl.
  rewrite Hgeo. simpl. rewrite Hhttp.
  rewrite <- app_assoc. simpl.
  unfold lift, raise.
  destruct (get data "features" (JList [])) as [features|e]; [|reflexivity].
  destruct (truthy features); simpl; [|reflexivity].
  destruct (item0 features); reflexivity.
Qed.

(** C3: when no field is blank and the geocoder finds no location, the
    lookup raises ValueError with the text "Address could not be geocoded.",
    the form shows that text in a "Lookup Error" dialog, and the trace holds
    the geocoder call and the dialog only: the feature service is never
    queried. *)
Theorem no_location_shows_geocode_error
    (w : services) (gui : form) (t : trace) :
  blank_field gui = false ->
  geocode w (submitted_address gui) = NoLocation ->
  query_precinct w (strip (street_entry gui)) (strip (city_entry gui))
    (strip (state_entry gui)) (strip (zip_entry gui)) t
  = (Raise (ValueError "Address could not be geocoded."),
     (t ++ [Geocode (submitted_address gui)])%list)
  /\ get_precinct_info w gui t
     = (Ok tt,
        (t ++ [Geocode (submitted_address gui);
               ShowError "Lookup Error" "Address could not be geocoded."])%list).
Proof.
  intros Hfilled Hgeo.
  pose proof (query_precinct_no_location w _ _ _ _ t Hgeo) as Hq.
  split.
  - exact Hq.
  - rewrite (get_precinct_info_filled w gui t Hfilled), Hq.
    rewrite <- app_assoc. reflexivity.
Qed.

Lemma no_location_shows_geocode_error_witness :
  blank_field (Form "100 Main St" "Dallas" "TX" "75201") = false
  /\ get_precinct_info (Services (fun _ => NoLocation) (fun _ _ => Json JNull))
       (Form "100 Main St" "Dallas" "TX" "75201") []
     = (Ok tt,
        [Geocode "100 Main St, Dallas, TX 75201";
         ShowError "Lookup Error" "Address could not be geocoded."]).
Proof.
  split.
  - reflexivity.
  - apply (no_location_shows_geocode_error
             (Services (fun _ => NoLocation) (fun _ _ => Json JNull))
             (Form "100 Main St" "Dallas" "TX" "75201") []);
      reflexivity.
Defined.

(** C4: when the body of the feature-service answer has an empty [features]
    array, the lookup raises ValueError "No precinct found.", the form shows
    it in a "Lookup Error" dialog, and no summary dialog is shown. *)
Theorem empty_features_shows_no_precinct
    (w : services) (gui : form) (loc : location) (body : dict) (t : trace) :
  blank_field gui = false ->
  geocode w (submitted_address gui) = Found loc ->
  http_get w arcgis_url (query_params (latitude loc) (longitude loc))
  = Json (JDict body) ->
  lookup body "features" = Some (JList []) ->
  query_precinct w (strip (street_entry gui)) (strip (city_entry gui))
    (strip (state_entry gui)) (strip (zip_entry gui)) t
  = (Raise (ValueError "No precinct found."), (t ++ both_calls gui loc)%list)
  /\ get_precinct_info w gui t
     = (Ok tt,
        (t ++ both_calls gui loc
           ++ [ShowError "Lookup Error" "No precinct found."])%list).
Proof.
  intros Hfilled Hgeo Hhttp Hfeatures.
  pose proof (query_precinct_answered w _ _ _ _ loc _ t Hgeo Hhttp) as Hq.
  simpl in Hq. rewrite Hfeatures in Hq. simpl in Hq.
  split.
  - exact Hq.
  - rewrite (get_precinct_info_filled w gui t Hfilled), Hq.
    rewrite <- app_assoc. reflexivity.
Qed.

Lemma empty_features_shows_no_precinct_witness :
  blank_field (Form "100 Main St" "Dallas" "TX" "75201") = false
  /\ get_precinct_info
       (Services (fun _ => Found dallas)
                 (fun _ _ => Json (JDict [("features", JList [])])))
       (Form "100 Main St" "Dallas" "TX" "75201") []
     = (Ok tt,
        (both_calls (Form "100 Main St" "Dallas" "TX" "75201") dallas
           ++ [ShowError "Lookup Error" "No precinct found."])%list).
Proof.
  split.
  - reflexivity.
  - apply (empty_features_shows_no_precinct
             (Services (fun _ => Found dallas)
                       (fun _ _ => Json (JDict [("features", JList [])])))
             (Form "100 Main St" "Dallas" "TX" "75201") dallas
             [("features", JList [])] []);
      reflexivity.
Defined.

(** C9: when the body of the answer is an object with no [features] key,
    the lookup ends exactly as it does for an empty [features] array:
    ValueError "No precinct found." after the two calls, not a query or
    parse error. *)
Theorem missing_features_key_is_no_precinct
    (w w' : services) (street_address city state zip_code : string)
    (loc : location) (body : dict) (t : trace) :
  geocode w (full_address street_address city state zip_code) = Found loc ->
  geocode w' (full_address street_address city state zip_code) = Found loc ->
  http_get w arcgis_url (query_params (latitude loc) (longitude loc))
  = Json (JDict body) ->
  lookup body "features" = None ->
  http_get w' arcgis_url (query_params (latitude loc) (longitude loc))
  = Json (JDict [("features", JList [])]) ->
  query_precinct w street_address city state zip_code t
  = (Raise (ValueError "No precinct found."),
     (t ++ [Geocode (full_address street_address city state zip_code);
            HttpGet arcgis_url
              (query_params (latitude loc) (longitude loc))])%list)
  /\ query_precinct w street_address city state zip_code t
     = query_precinct w' street_address city state zip_code t.
Proof.
  intros Hgeo Hgeo' Hhttp Hfeatures Hhttp'.
  rewrite (query_precinct_answered w _ _ _ _ loc _ t Hgeo Hhttp).
  rewrite (query_precinct_answered w' _ _ _ _ loc _ t Hgeo' Hhttp').
  simpl. rewrite Hfeatures. simpl. split; reflexivity.
Qed.

Lemma missing_features_key_is_no_precinct_witness :
  lookup [("error", JDict [("code", JInt 400)])] "features" = None
  /\ query_precinct
       (Services (fun _ => Found dallas)
          (fun _ _ => Json (JDict [("error", JDict [("code", JInt 400)])])))
       "100 Main St" "Dallas" "TX" "75201" []
     = query_precinct
         (Services (fun _ => Found dallas)
            (fun _ _ => Json (JDict [("features", JList [])])))
         "100 Main St" "Dallas" "TX" "75201" [].
Proof.
  split.
  - reflexivity.
  - apply (missing_features_key_is_no_precinct
             (Services (fun _ => Found dallas)
                (fun _ _ => Json (JDict [("error", JDict [("code", JInt 400)])])))
             (Services (fun _ => Found dallas)
                (fun _ _ => Json (JDict [("features", JList [])])))
             "100 Main St" "Dallas" "TX" "75201" dallas
             [("error", JDict [("code", JInt 400)])] []);
      reflexivity.
Defined.

(** The lookup on a body whose [features] array starts with a feature that
    carries an [attributes] entry. *)
Lemma query_precinct_first_feature
    (w : services) (street_address city state zip_code : string)
    (loc : location) (body feature : dict) (attributes : json)
    (others : list json) (t : trace) :
  geocode w (full_address street_address city state zip_code) = Found loc ->
  http_get w arcgis_url (query_params (latitude loc) (longitude loc))
  = Json (JDict body) ->
  lookup body "features" = Some (JList (JDict feature :: others)) ->
  lookup feature "attributes" = Some attributes ->
  query_precinct w street_address city state zip_code t
  = (Ok attributes,
     (t ++ [Geocode (full_address street_address city state zip_code);
            HttpGet arcgis_url
              (query_params (latitude loc) (longitude loc))])%list).
Proof.
  intros Hgeo Hhttp Hfeatures Hattributes.
  rewrite (query_precinct_answered w _ _ _ _ loc _ t Hgeo Hhttp).
  simpl. rewrite Hfeatures. simpl. rewrite Hattributes. reflexivity.
Qed.

(** C6: when the body has a non-empty [features] array whose first feature
    carries an [attributes] entry, the lookup returns exactly that entry;
    and a second service whose array starts with the same feature, whatever
    follows it, makes the lookup return the same value. *)
Theorem first_feature_attributes_returned
    (w w' : services) (street_address city state zip_code : string)
    (loc : location) (body body' feature : dict) (attributes : json)
    (others others' : list json) (t : trace) :
  geocode w (full_address street_address city state zip_code) = Found loc ->
  http_get w arcgis_url (query_params (latitude loc) (longitude loc))
  = Json (JDict body) ->
  lookup body "features" = Some (JList (JDict feature :: others)) ->
  lookup feature "attributes" = Some attributes ->
  geocode w' (full_address street_address city state zip_code) = Found loc ->
  http_get w' arcgis_url (query_params (latitude loc) (longitude loc))
  = Json (JDict body') ->
  lookup body' "features" = Some (JList (JDict feature :: others')) ->
  fst (query_precinct w street_address city state zip_code t) = Ok attributes
  /\ fst (query_precinct w' street_address city state zip_code t)
     = Ok attributes.
Proof.
  intros Hgeo Hhttp Hfeatures Hattributes Hgeo' Hhttp' Hfeatures'.
  rewrite (query_precinct_first_feature w _ _ _ _ loc body feature attributes
             others t Hgeo Hhttp Hfeatures Hattributes).
  rewrite (query_precinct_first_feature w' _ _ _ _ loc body' feature attributes
             others' t Hgeo' Hhttp' Hfeatures' Hattributes).
  split; reflexivity.
Qed.

Lemma first_feature_attributes_returned_witness :
  fst (query_precinct
         (Services (fun _ => Found dallas) (fun _ _ => Json one_feature))
         "100 Main St" "Dallas" "TX" "75201" [])
  = Ok (JDict [("PRECINCT", JStr "3")])
  /\ fst (query_precinct
            (Services (fun _ => Found dallas) (fun _ _ => Json two_features))
            "100 Main St" "Dallas" "TX" "75201" [])
     = Ok (JDict [("PRECINCT", JStr "3")]).
Proof.
  apply (first_feature_attributes_returned
           (Services (fun _ => Found dallas) (fun _ _ => Json one_feature))
           (Services (fun _ => Found dallas) (fun _ _ => Json two_features))
           "100 Main St" "Dallas" "TX" "75201" dallas
           [("features",
             JList [JDict [("attributes", JDict [("PRECINCT", JStr "3")])]])]
           [("features",
             JList [JDict [("attributes", JDict [("PRECINCT", JStr "3")])];
                    JDict [("attributes", JDict [("PRECINCT", JStr "5")])]])]
           [("attributes", JDict [("PRECINCT", JStr "3")])]
           (JDict [("PRECINCT", JStr "3")])
           []
           [JDict [("attributes", JDict [("PRECINCT", JStr "5")])]]
           []); reflexivity.
Defined.

(** C1: for the feature of the worked example the formatter builds exactly
    the five expected lines, and a submission whose lookup returns that
    feature shows them in the "Precinct Information" dialog. *)
Theorem jane_doe_summary_displayed
    (w : services) (gui : form) (loc : location) (body feature : dict)
    (others : list json) (t : trace) :
  blank_field gui = false ->
  geocode w (submitted_address gui) = Found loc ->
  http_get w arcgis_url (query_params (latitude loc) (longitude loc))
  = Json (JDict body) ->
  lookup body "features" = Some (JList (JDict feature :: others)) ->
  lookup feature "attributes" = Some jane_doe ->
  format_results jane_doe = Ok jane_doe_summary
  /\ get_precinct_info w gui t
     = (Ok tt,
        (t ++ both_calls gui loc
           ++ [ShowInfo "Precinct Information" jane_doe_summary])%list).
Proof.
  intros Hfilled Hgeo Hhttp Hfeatures Hattributes.
  assert (Hformat : format_results jane_doe = Ok jane_doe_summary)
    by reflexivity.
  split.
  - exact Hformat.
  - rewrite (get_precinct_info_filled w gui t Hfilled).
    rewrite (query_precinct_first_feature w _ _ _ _ loc body feature
               jane_doe others t Hgeo Hhttp Hfeatures Hattributes).
    rewrite Hformat, <- app_assoc. reflexivity.
Qed.

Lemma jane_doe_summary_displayed_witness :
  blank_field (Form "100 Main St" "Dallas" "TX" "75201") = false
  /\ get_precinct_info
       (Services (fun _ => Found dallas)
          (fun _ _ =>
             Json (JDict [("features", JList [JDict [("attributes", jane_doe)]])])))
       (Form "100 Main St" "Dallas" "TX" "75201") []
     = (Ok tt,
        (both_calls (Form "100 Main St" "Dallas" "TX" "75201") dallas
           ++ [ShowInfo "Precinct Information" jane_doe_summary])%list).
Proof.
  split.
  - reflexivity.
  - apply (jane_doe_summary_displayed
             (Services (fun _ => Found dallas)
                (fun _ _ =>
                   Json (JDict
                     [("features", JList [JDict [("attributes", jane_doe)]])])))
             (Form "100 Main St" "Dallas" "TX" "75201") dallas
             [("features", JList [JDict [("attributes", jane_doe)]])]
             [("attributes", jane_doe)] [] []);
      reflexivity.
Defined.

(** ** Submissions do not depend on what happened before *)

Lemma ret_appends_only {A} (a : A) : appends_only (ret a).
Proof. intros t. unfold ret. simpl. rewrite app_nil_r. reflexivity. Qed.

Lemma raise_appends_only {A} (e : exn) : appends_only (@raise A e).
Proof. intros t. unfold raise. simpl. rewrite app_nil_r. reflexivity. Qed.

Lemma lift_appends_only {A} (o : outcome A) : appends_only (lift o).
Proof. intros t. unfold lift. simpl. rewrite app_nil_r. reflexivity. Qed.

Lemma emit_appends_only (e : event) : appends_only (emit e).
Proof. intros t. reflexivity. Qed.

Lemma bind_appends_only {A B} (m : M A) (k : A -> M B) :
  appends_only m -> (forall a, appends_only (k a)) -> appends_only (bind m k).
Proof.
  intros Hm Hk t. unfold bind.
  rewrite (Hm t). destruct (m []) as [[a|e] s1]; simpl.
  - rewrite (Hk a (t ++ s1)%list), (Hk a s1).
    simpl. rewrite app_assoc. reflexivity.
  - reflexivity.
Qed.

Lemma except_ValueError_appends_only {A} (body : M A) (handler : string -> M A) :
  appends_only body -> (forall msg, appends_only (handler msg)) ->
  appends_only (except_ValueError body handler).
Proof.
  intros Hbody Hhandler t. unfold except_ValueError.
  rewrite (Hbody t). destruct (body []) as [[a|e] s1]; simpl.
  - reflexivity.
  - destruct e; try reflexivity.
    rewrite (Hhandler msg (t ++ s1)%list), (Hhandler msg s1).
    simpl. rewrite app_assoc. reflexivity.
Qed.

Create HintDb appends.
#[local] Hint Resolve ret_appends_only raise_appends_only lift_appends_only
  emit_appends_only : appends.

Ltac appends_step :=
  first [ apply bind_appends_only; [|intros ?]
        | apply except_ValueError_appends_only; [|intros ?]
        | solve [auto with appends]
        | unfold showerror, showinfo; solve [auto with appends] ].

Lemma query_precinct_appends_only
    (w : services) (street_address city state zip_code : string) :
  appends_only (query_precinct w street_address city state zip_code).
Proof.
  unfold query_precinct.
  appends_step; [appends_step|].
  destruct (geocode w _); [appends_step | appends_step |].
  appends_step; [appends_step|].
  destruct (http_get w _ _); [appends_step|].
  appends_step; [appends_step|].
  match goal with |- appends_only (if ?b then _ else _) => destruct b end;
    [appends_step|].
  appends_step; appends_step.
Qed.

Lemma get_precinct_info_appends_only (w : services) (gui : form) :
  appends_only (get_precinct_info w gui).
Proof.
  unfold get_precinct_info.
  destruct (negb (all _)); [appends_step|].
  appends_step.
  - appends_step.
    + appends_step; [apply query_precinct_appends_only | appends_step].
    + appends_step; appends_step.
  - match goal with |- appends_only (match ?x with _ => _ end) => destruct x end;
      [|appends_step].
    appends_step; appends_step.
Qed.

(** The lookup reads the services at the two requests it makes only. *)
Lemma query_precinct_same_responses
    (w w' : services) (street_address city state zip_code : string) (t : trace) :
  geocode w (full_address street_address city state zip_code)
  = geocode w' (full_address street_address city state zip_code) ->
  (forall loc,
      geocode w (full_address street_address city state zip_code) = Found loc ->
      http_get w arcgis_url (query_params (latitude loc) (longitude loc))
      = http_get w' arcgis_url (query_params (latitude loc) (longitude loc))) ->
  query_precinct w street_address city state zip_code t
  = query_precinct w' street_address city state zip_code t.
Proof.
  intros Hgeo Hhttp. unfold query_precinct, bind. simpl.
  rewrite <- Hgeo.
  destruct (geocode w _) as [e| |loc] eqn:E; try reflexivity.
  rewrite (Hhttp loc eq_refl). reflexivity.
Qed.

(** C8: the outcome of a submission is a function of the form and of the
    two responses: services that answer the two requests alike give the same
    run.  And with the services fixed, submitting the same form twice in a
    row makes the same calls and shows the same dialog with the same text
    both times, whatever was on the trace before; the second run ends the
    way the first did. *)
Theorem same_submission_same_summary
    (w w' : services) (gui : form) (t : trace) :
  blank_field gui = false ->
  geocode w (submitted_address gui) = geocode w' (submitted_address gui) ->
  (forall loc,
      geocode w (submitted_address gui) = Found loc ->
      http_get w arcgis_url (query_params (latitude loc) (longitude loc))
      = http_get w' arcgis_url (query_params (latitude loc) (longitude loc))) ->
  get_precinct_info w gui t = get_precinct_info w' gui t
  /\ exists shown : list event,
      snd (get_precinct_info w gui t) = (t ++ shown)%list
      /\ snd (get_precinct_info w gui (snd (get_precinct_info w gui t)))
         = (t ++ shown ++ shown)%list
      /\ fst (get_precinct_info w gui (snd (get_precinct_info w gui t)))
         = fst (get_precinct_info w gui t).
Proof.
  intros Hfilled Hgeo Hhttp. split.
  - rewrite !(get_precinct_info_filled _ gui t Hfilled).
    rewrite (query_precinct_same_responses w w' _ _ _ _ t Hgeo Hhttp).
    reflexivity.
  - exists (snd (get_precinct_info w gui [])).
    pose proof (get_precinct_info_appends_only w gui) as H.
    rewrite (H (snd (get_precinct_info w gui t))).
    rewrite (H t). simpl.
    rewrite app_assoc. repeat split; reflexivity.
Qed.

Lemma same_submission_same_summary_witness :
  blank_field main_street = false
  /\ snd (get_precinct_info mock main_street
            (snd (get_precinct_info mock main_street [])))
     = ((both_calls main_street dallas
           ++ [ShowInfo "Precinct Information" jane_doe_summary])
        ++ (both_calls main_street dallas
              ++ [ShowInfo "Precinct Information" jane_doe_summary]))%list.
Proof.
  split.
  - reflexivity.
  - destruct (same_submission_same_summary mock mock main_street []
                eq_refl eq_refl (fun _ _ => eq_refl))
      as [_ [shown [H1 [H2 _]]]].
    rewrite H2. simpl in H1. rewrite <- H1. reflexivity.
Defined.

(** ** The summary *)

Lemma as_strings_filter (values : list json) :
  forallb str_or_null values = true ->
  as_strings (filter truthy values) = Ok (flat_map text_of values).
Proof.
  induction values as [|v values IH]; simpl.
  - reflexivity.
  - intros H. apply andb_prop in H. destruct H as [Hv Hrest].
    specialize (IH Hrest).
    destruct v; try discriminate; simpl.
    + exact IH.
    + destruct (s =? ""); simpl.
      * exact IH.
      * rewrite IH. reflexivity.
Qed.

Lemma name_value_get_or (d : dict) (key : string) :
  name_value_ok d key = true ->
  str_or_null (get_or d key (JStr "")) = true
  /\ text_of (get_or d key (JStr "")) = name_part d key.
Proof.
  unfold name_value_ok, get_or, name_part.
  destruct (lookup d key) as [v|].
  - destruct v; try discriminate; intros _; split; reflexivity.
  - intros _. split; reflexivity.
Qed.

Lemma get_dict (d : dict) (key : string) (default : json) :
  get (JDict d) key default = Ok (get_or d key default).
Proof. unfold get, get_or. destruct (lookup d key); reflexivity. Qed.

(** The formatter on a dict whose name values are strings, null or absent:
    it returns, and each field of the layout is read off the dict. *)
Lemma format_results_dict (d : dict) :
  name_values_ok d = true ->
  format_results (JDict d)
  = Ok (layout
          match get_or d "PRECINCT" JNull with
          | JNull => "Not Found"
          | v => str v
          end
          (if strip (spec_official_name d) =? "" then "Not Found"
           else strip (spec_official_name d))
          (str (get_or d "ADDRESS1" (JStr "Address Not Found")))
          (str (get_or d "CITY1" (JStr "City Not Found")))
          (str (get_or d "STATE1" (JStr "State Not Found")))
          (str (get_or d "ZIP1" (JStr "ZIP Not Found")))
          (str (get_or d "TEL1" (JStr "Phone Not Found")))
          match get_or d "PRECINCT" JNull with
          | JNull => "Website Not Found"
          | v => website_url (str v)
          end).
Proof.
  intros Hok. unfold name_values_ok in Hok.
  apply andb_prop in Hok. destruct Hok as [Hok Hlast].
  apply andb_prop in Hok. destruct Hok as [Htitle Hfirst].
  destruct (name_value_get_or d _ Htitle) as [T1 T2].
  destruct (name_value_get_or d _ Hfirst) as [F1 F2].
  destruct (name_value_get_or d _ Hlast) as [L1 L2].
  unfold format_results. rewrite !get_dict.
  unfold join_values.
  rewrite as_strings_filter by (simpl; rewrite T1, F1, L1; reflexivity).
  simpl flat_map. rewrite T2, F2, L2, app_nil_r.
  fold (spec_official_name d).
  destruct (get_or d "PRECINCT" JNull); reflexivity.
Qed.

Lemma get_or_absent (d : dict) (key : string) (default : json) :
  lookup d key = None -> get_or d key default = default.
Proof. unfold get_or. intros ->. reflexivity. Qed.

Lemma get_or_present (d : dict) (key : string) (default v : json) :
  lookup d key = Some v -> get_or d key default = v.
Proof. unfold get_or. intros ->. reflexivity. Qed.

Lemma name_part_absent (d : dict) (key : string) :
  lookup d key = None -> name_part d key = [].
Proof. unfold name_part. intros ->. reflexivity. Qed.

(** C5, as stated, fails: with TITLE1 absent the summary names the judge
    "Jane Doe" and holds no "Not Found" text at all, so the missing title is
    not replaced by a placeholder.  And a name value that is a number makes
    the formatter raise TypeError even though TEL1 is merely absent. *)
Lemma absent_title_has_no_placeholder :
  lookup jane_doe_untitled "TITLE1" = None
  /\ format_results (JDict jane_doe_untitled)
     = Ok (layout "3" "Jane Doe" "100 Main St" "Dallas" "TX" "75201"
             "214-555-0100"
             "https://www.dallascounty.org/government/jpcourts/3/")
  /\ index 0 "Not Found"
       (layout "3" "Jane Doe" "100 Main St" "Dallas" "TX" "75201"
          "214-555-0100"
          "https://www.dallascounty.org/government/jpcourts/3/") = None
  /\ lookup [("TITLE1", JInt 5)] "TEL1" = None
  /\ format_results (JDict [("TITLE1", JInt 5)]) = Raise TypeError.
Proof. repeat split; reflexivity. Qed.

(** C5, amended: on a mapping whose TITLE1, FIRSTNAME1 and LASTNAME1 values
    are strings, null or absent the formatter always returns a summary.  In
    it an absent ADDRESS1, CITY1, STATE1, ZIP1 or TEL1 reads "Address Not
    Found", "City Not Found", "State Not Found", "ZIP Not Found" or "Phone
    Not Found"; an absent PRECINCT makes the number read "Not Found" and the
    website "Website Not Found"; an absent name part is left out of the
    name, which reads "Not Found" when all three are absent. *)
Theorem absent_fields_get_placeholders (d : dict) :
  name_values_ok d = true ->
  exists number name address city state zip phone website : string,
    format_results (JDict d)
    = Ok (layout number name address city state zip phone website)
    /\ (lookup d "ADDRESS1" = None -> address = "Address Not Found")
    /\ (lookup d "CITY1" = None -> city = "City Not Found")
    /\ (lookup d "STATE1" = None -> state = "State Not Found")
    /\ (lookup d "ZIP1" = None -> zip = "ZIP Not Found")
    /\ (lookup d "TEL1" = None -> phone = "Phone Not Found")
    /\ (lookup d "PRECINCT" = None ->
        number = "Not Found" /\ website = "Website Not Found")
    /\ name = (if strip (spec_official_name d) =? "" then "Not Found"
               else strip (spec_official_name d))
    /\ (lookup d "TITLE1" = None -> lookup d "FIRSTNAME1" = None ->
        lookup d "LASTNAME1" = None -> name = "Not Found").
Proof.
  intros Hok.
  eexists _, _, _, _, _, _, _, _.
  split; [exact (format_results_dict d Hok)|].
  repeat split.
  - intros H. rewrite (get_or_absent d _ _ H). reflexivity.
  - intros H. rewrite (get_or_absent d _ _ H). reflexivity.
  - intros H. rewrite (get_or_absent d _ _ H). reflexivity.
  - intros H. rewrite (get_or_absent d _ _ H). reflexivity.
  - intros H. rewrite (get_or_absent d _ _ H). reflexivity.
  - rewrite (get_or_absent d _ _ H). reflexivity.
  - rewrite (get_or_absent d _ _ H). reflexivity.
  - intros Ht Hf Hl. unfold spec_official_name.
    rewrite (name_part_absent d _ Ht), (name_part_absent d _ Hf),
      (name_part_absent d _ Hl).
    reflexivity.
Qed.

Lemma absent_fields_get_placeholders_witness :
  name_values_ok [("FIRSTNAME1", JStr "Jane")] = true
  /\ format_results (JDict [("FIRSTNAME1", JStr "Jane")])
     = Ok (layout "Not Found" "Jane" "Address Not Found" "City Not Found"
             "State Not Found" "ZIP Not Found" "Phone Not Found"
             "Website Not Found").
Proof.
  split.
  - reflexivity.
  - destruct (absent_fields_get_placeholders [("FIRSTNAME1", JStr "Jane")]
                eq_refl)
      as (number & name & address & city & state & zip & phone & website
          & E & Ha & Hc & Hs & Hz & Hp & Hn & Hname & _).
    rewrite E.
    rewrite (Ha eq_refl), (Hc eq_refl), (Hs eq_refl), (Hz eq_refl),
      (Hp eq_refl), (proj1 (Hn eq_refl)), (proj2 (Hn eq_refl)), Hname.
    reflexivity.
Defined.

Lemma last_char_app (a b : string) :
  b <> "" -> last_char (a ++ b) = last_char b.
Proof.
  intros Hb. induction a as [|c a IH]; simpl.
  - reflexivity.
  - destruct (a ++ b) eqn:E.
    + destruct a; simpl in E; [contradiction | discriminate].
    + exact IH.
Qed.

Lemma last_char_website_url (head number : string) :
  last_char (head ++ website_url number) = Some "/"%char.
Proof.
  unfold website_url.
  rewrite last_char_app by discriminate.
  rewrite last_char_app by (destruct number; discriminate).
  rewrite last_char_app by discriminate.
  reflexivity.
Qed.

(** C7, as stated, fails: for the empty mapping the name in the summary is
    "Not Found", not the (empty) join of the name parts, and the summary
    ends with "Website Not Found", not with a jpcourts URL.  Besides, a
    title with a trailing blank is shown without it, and a title that is a
    number makes the join raise TypeError. *)
Lemma empty_mapping_has_no_url :
  format_results (JDict [])
  = Ok (layout "Not Found" "Not Found" "Address Not Found" "City Not Found"
          "State Not Found" "ZIP Not Found" "Phone Not Found"
          "Website Not Found")
  /\ spec_official_name [] = ""
  /\ ~ (exists head number : string,
          format_results (JDict []) = Ok (head ++ website_url number))
  /\ spec_official_name [("PRECINCT", JStr "3"); ("TITLE1", JStr "Judge ")]
     = "Judge "
  /\ format_results (JDict [("PRECINCT", JStr "3"); ("TITLE1", JStr "Judge ")])
     = Ok (layout "3" "Judge" "Address Not Found" "City Not Found"
             "State Not Found" "ZIP Not Found" "Phone Not Found"
             (website_url "3"))
  /\ format_results (JDict [("PRECINCT", JStr "3"); ("TITLE1", JInt 5)])
     = Raise TypeError.
Proof.
  split; [reflexivity|]. split; [reflexivity|].
  split; [|repeat split; reflexivity].
  intros (head & number & E).
  pose proof (last_char_website_url head number) as Hlast.
  assert (Hsummary :
            format_results (JDict [])
            = Ok (layout "Not Found" "Not Found" "Address Not Found"
                    "City Not Found" "State Not Found" "ZIP Not Found"
                    "Phone Not Found" "Website Not Found")) by reflexivity.
  rewrite Hsummary in E. injection E as E.
  rewrite <- E in Hlast. vm_compute in Hlast. discriminate.
Qed.

(** C7, amended: on a mapping whose TITLE1, FIRSTNAME1 and LASTNAME1 values
    are strings, null or absent, the name in the summary is the space-join
    of the non-empty name values with surrounding whitespace stripped, or
    "Not Found" when that is empty; the website is the jpcourts URL of the
    precinct number when PRECINCT is present and not null, and "Website Not
    Found" otherwise. *)
Theorem official_name_and_website (d : dict) :
  name_values_ok d = true ->
  exists number address city state zip phone : string,
    format_results (JDict d)
    = Ok (layout number
            (if strip (spec_official_name d) =? "" then "Not Found"
             else strip (spec_official_name d))
            address city state zip phone
            match lookup d "PRECINCT" with
            | None | Some JNull => "Website Not Found"
            | Some v => website_url (str v)
            end).
Proof.
  intros Hok.
  eexists _, _, _, _, _, _.
  rewrite (format_results_dict d Hok).
  assert (Hsite :
            match get_or d "PRECINCT" JNull with
            | JNull => "Website Not Found"
            | v => website_url (str v)
            end
            = match lookup d "PRECINCT" with
              | None | Some JNull => "Website Not Found"
              | Some v => website_url (str v)
              end).
  { unfold get_or.
    destruct (lookup d "PRECINCT") as [v|]; [destruct v|]; reflexivity. }
  rewrite Hsite. reflexivity.
Qed.

Lemma official_name_and_website_witness :
  name_values_ok [("PRECINCT", JInt 3); ("TITLE1", JStr "Judge ");
                  ("FIRSTNAME1", JNull); ("LASTNAME1", JStr "Doe ")] = true
  /\ exists number address city state zip phone : string,
      format_results
        (JDict [("PRECINCT", JInt 3); ("TITLE1", JStr "Judge ");
                ("FIRSTNAME1", JNull); ("LASTNAME1", JStr "Doe ")])
      = Ok (layout number "Judge  Doe" address city state zip phone
              "https://www.dallascounty.org/government/jpcourts/3/").
Proof.
  split.
  - reflexivity.
  - exact (official_name_and_website
             [("PRECINCT", JInt 3); ("TITLE1", JStr "Judge ");
              ("FIRSTNAME1", JNull); ("LASTNAME1", JStr "Doe ")] eq_refl).
Defined.

(** ** Further properties of the lookup *)

(** A submission with no blank field whose two services both answered. *)
Lemma get_precinct_info_answered
    (w : services) (gui : form) (loc : location) (data : json) (t : trace) :
  blank_field gui = false ->
  geocode w (submitted_address gui) = Found loc ->
  http_get w arcgis_url (query_params (latitude loc) (longitude loc))
  = Json data ->
  get_precinct_info w gui t
  = match first_attributes data with
    | Ok precinct_info =>
        match format_results precinct_info with
        | Ok results =>
            (Ok tt,
             (t ++ both_calls gui loc
                ++ [ShowInfo "Precinct Information" results])%list)
        | Raise e => (Raise e, (t ++ both_calls gui loc)%list)
        end
    | Raise (ValueError message) =>
        (Ok tt,
         (t ++ both_calls gui loc ++ [ShowError "Lookup Error" message])%list)
    | Raise e => (Raise e, (t ++ both_calls gui loc)%list)
    end.
Proof.
  intros Hfilled Hgeo Hhttp.
  rewrite (get_precinct_info_filled w gui t Hfilled).
  rewrite (query_precinct_answered w _ _ _ _ loc data t Hgeo Hhttp).
  fold (first_attributes data). fold (submitted_address gui).
  fold (both_calls gui loc).
  destruct (first_attributes data) as [info|e].
  - destruct (format_results info); [rewrite <- app_assoc|]; reflexivity.
  - destruct e; try reflexivity. rewrite <- app_assoc. reflexivity.
Qed.

(** X1: when the geocoder fails with a service error, the lookup raises
    ValueError "Geocoding error: " followed by the error's text, the form
    shows it in a "Lookup Error" dialog, and the feature service is not
    queried. *)
Theorem geocoder_error_shows_lookup_error
    (w : services) (gui : form) (text : string) (t : trace) :
  blank_field gui = false ->
  geocode w (submitted_address gui) = GeocoderServiceError text ->
  query_precinct w (strip (street_entry gui)) (strip (city_entry gui))
    (strip (state_entry gui)) (strip (zip_entry gui)) t
  = (Raise (ValueError ("Geocoding error: " ++ text)),
     (t ++ [Geocode (submitted_address gui)])%list)
  /\ get_precinct_info w gui t
     = (Ok tt,
        (t ++ [Geocode (submitted_address gui);
               ShowError "Lookup Error" ("Geocoding error: " ++ text)])%list).
Proof.
  intros Hfilled Hgeo.
  assert (Hq : query_precinct w (strip (street_entry gui))
                 (strip (city_entry gui)) (strip (state_entry gui))
                 (strip (zip_entry gui)) t
               = (Raise (ValueError ("Geocoding error: " ++ text)),
                  (t ++ [Geocode (submitted_address gui)])%list)).
  { unfold query_precinct, bind, emit. simpl.
    fold (submitted_address gui). rewrite Hgeo. reflexivity. }
  split.
  - exact Hq.
  - rewrite (get_precinct_info_filled w gui t Hfilled), Hq.
    rewrite <- app_assoc. reflexivity.
Qed.

Lemma geocoder_error_shows_lookup_error_witness :
  blank_field main_street = false
  /\ get_precinct_info
       (Services (fun _ => GeocoderServiceError "Service timed out")
                 (fun _ _ => Json JNull))
       main_street []
     = (Ok tt,
        [Geocode "100 Main St, Dallas, TX 75201";
         ShowError "Lookup Error" "Geocoding error: Service timed out"]).
Proof.
  split.
  - reflexivity.
  - apply (geocoder_error_shows_lookup_error
             (Services (fun _ => GeocoderServiceError "Service timed out")
                       (fun _ _ => Json JNull))
             main_street "Service timed out" []);
      reflexivity.
Defined.

(** X2: when the request to the feature service fails, the lookup raises
    ValueError "Error querying ArcGIS: " followed by the failure's text, and
    the form shows it in a "Lookup Error" dialog after the two calls. *)
Theorem request_error_shows_lookup_error
    (w : services) (gui : form) (loc : location) (text : string) (t : trace) :
  blank_field gui = false ->
  geocode w (submitted_address gui) = Found loc ->
  http_get w arcgis_url (query_params (latitude loc) (longitude loc))
  = RequestException text ->
  query_precinct w (strip (street_entry gui)) (strip (city_entry gui))
    (strip (state_entry gui)) (strip (zip_entry gui)) t
  = (Raise (ValueError ("Error querying ArcGIS: " ++ text)),
     (t ++ both_calls gui loc)%list)
  /\ get_precinct_info w gui t
     = (Ok tt,
        (t ++ both_calls gui loc
           ++ [ShowError "Lookup Error"
                 ("Error querying ArcGIS: " ++ text)])%list).
Proof.
  intros Hfilled Hgeo Hhttp.
  assert (Hq : query_precinct w (strip (street_entry gui))
                 (strip (city_entry gui)) (strip (state_entry gui))
                 (strip (zip_entry gui)) t
               = (Raise (ValueError ("Error querying ArcGIS: " ++ text)),
                  (t ++ both_calls gui loc)%list)).
  { unfold query_precinct, bind, emit. simpl.
    fold (submitted_address gui). rewrite Hgeo. simpl. rewrite Hhttp.
    unfold raise. rewrite <- app_assoc. reflexivity. }
  split.
  - exact Hq.
  - rewrite (get_precinct_info_filled w gui t Hfilled), Hq.
    rewrite <- app_assoc. reflexivity.
Qed.

Lemma request_error_shows_lookup_error_witness :
  blank_field main_street = false
  /\ get_precinct_info
       (Services (fun _ => Found dallas)
                 (fun _ _ => RequestException "503 Server Error"))
       main_street []
     = (Ok tt,
        (both_calls main_street dallas
           ++ [ShowError "Lookup Error"
                 "Error querying ArcGIS: 503 Server Error"])%list).
Proof.
  split.
  - reflexivity.
  - apply (request_error_shows_lookup_error
             (Services (fun _ => Found dallas)
                       (fun _ _ => RequestException "503 Server Error"))
             main_street dallas "503 Server Error" []);
      reflexivity.
Defined.

(** X3: any [features] value Python counts as false (null, false, 0, an
    empty string, list or object) is handled like an empty array: the form
    shows "No precinct found." in a "Lookup Error" dialog. *)
Theorem falsy_features_is_no_precinct
    (w : services) (gui : form) (loc : location) (body : dict)
    (features : json) (t : trace) :
  blank_field gui = false ->
  geocode w (submitted_address gui) = Found loc ->
  http_get w arcgis_url (query_params (latitude loc) (longitude loc))
  = Json (JDict body) ->
  lookup body "features" = Some features ->
  truthy features = false ->
  get_precinct_info w gui t
  = (Ok tt,
     (t ++ both_calls gui loc
        ++ [ShowError "Lookup Error" "No precinct found."])%list).
Proof.
  intros Hfilled Hgeo Hhttp Hfeatures Hfalsy.
  rewrite (get_precinct_info_answered w gui loc _ t Hfilled Hgeo Hhttp).
  unfold first_attributes, get. rewrite Hfeatures, Hfalsy. reflexivity.
Qed.

Lemma falsy_features_is_no_precinct_witness :
  truthy JNull = false
  /\ get_precinct_info
       (Services (fun _ => Found dallas)
                 (fun _ _ => Json (JDict [("features", JNull)])))
       main_street []
     = (Ok tt,
        (both_calls main_street dallas
           ++ [ShowError "Lookup Error" "No precinct found."])%list).
Proof.
  split.
  - reflexivity.
  - apply (falsy_features_is_no_precinct
             (Services (fun _ => Found dallas)
                       (fun _ _ => Json (JDict [("features", JNull)])))
             main_street dallas [("features", JNull)] JNull []);
      reflexivity.
Defined.

(** X4: when the parsed body is not an object (an array, a string, a
    number, null), [data.get] raises AttributeError; the form does not catch
    it: it escapes after the two calls and no dialog is shown. *)
Theorem non_object_body_escapes
    (w : services) (gui : form) (loc : location) (data : json) (t : trace) :
  blank_field gui = false ->
  geocode w (submitted_address gui) = Found loc ->
  http_get w arcgis_url (query_params (latitude loc) (longitude loc))
  = Json data ->
  is_object data = false ->
  get_precinct_info w gui t
  = (Raise AttributeError, (t ++ both_calls gui loc)%list).
Proof.
  intros Hfilled Hgeo Hhttp Hdata.
  rewrite (get_precinct_info_answered w gui loc _ t Hfilled Hgeo Hhttp).
  destruct data; try discriminate; reflexivity.
Qed.

Lemma non_object_body_escapes_witness :
  is_object (JList []) = false
  /\ get_precinct_info
       (Services (fun _ => Found dallas) (fun _ _ => Json (JList [])))
       main_street []
     = (Raise AttributeError, both_calls main_street dallas).
Proof.
  split.
  - reflexivity.
  - apply (non_object_body_escapes
             (Services (fun _ => Found dallas) (fun _ _ => Json (JList [])))
             main_street dallas (JList []) []);
      reflexivity.
Defined.

(** X5: when the first feature is an object without an [attributes] entry
    the lookup raises KeyError, and when it is not an object at all it
    raises TypeError; either escapes the form after the two calls with no
    dialog shown. *)
Theorem malformed_first_feature_escapes
    (w : services) (gui : form) (loc : location) (body : dict)
    (first : json) (others : list json) (t : trace) :
  blank_field gui = false ->
  geocode w (submitted_address gui) = Found loc ->
  http_get w arcgis_url (query_params (latitude loc) (longitude loc))
  = Json (JDict body) ->
  lookup body "features" = Some (JList (first :: others)) ->
  match first with
  | JDict feature => lookup feature "attributes" = None
  | _ => True
  end ->
  get_precinct_info w gui t
  = (Raise (if is_object first then KeyError else TypeError),
     (t ++ both_calls gui loc)%list).
Proof.
  intros Hfilled Hgeo Hhttp Hfeatures Hfirst.
  rewrite (get_precinct_info_answered w gui loc _ t Hfilled Hgeo Hhttp).
  unfold first_attributes, get. rewrite Hfeatures. simpl.
  destruct first; try reflexivity.
  simpl. rewrite Hfirst. reflexivity.
Qed.

Lemma malformed_first_feature_escapes_witness :
  lookup [("geometry", JNull)] "attributes" = None
  /\ get_precinct_info
       (Services (fun _ => Found dallas)
          (fun _ _ =>
             Json (JDict [("features", JList [JDict [("geometry", JNull)]])])))
       main_street []
     = (Raise KeyError, both_calls main_street dallas).
Proof.
  split.
  - reflexivity.
  - apply (malformed_first_feature_escapes
             (Services (fun _ => Found dallas)
                (fun _ _ =>
                   Json (JDict
                     [("features", JList [JDict [("geometry", JNull)]])])))
             main_street dallas
             [("features", JList [JDict [("geometry", JNull)]])]
             (JDict [("geometry", JNull)]) [] []);
      reflexivity.
Defined.

(** X6: a [features] value that counts as true but is not a list (a
    non-empty object or string, a number, true) never yields a summary:
    indexing it raises KeyError for an object and ends in TypeError
    otherwise, which escapes the form with no dialog shown. *)
Theorem non_list_features_escape
    (w : services) (gui : form) (loc : location) (body : dict)
    (features : json) (t : trace) :
  blank_field gui = false ->
  geocode w (submitted_address gui) = Found loc ->
  http_get w arcgis_url (query_params (latitude loc) (longitude loc))
  = Json (JDict body) ->
  lookup body "features" = Some features ->
  truthy features = true ->
  is_list features = false ->
  get_precinct_info w gui t
  = (Raise (if is_object features then KeyError else TypeError),
     (t ++ both_calls gui loc)%list).
Proof.
  intros Hfilled Hgeo Hhttp Hfeatures Htruthy Hlist.
  rewrite (get_precinct_info_answered w gui loc _ t Hfilled Hgeo Hhttp).
  unfold first_attributes, get. rewrite Hfeatures, Htruthy.
  destruct features as [ |b|n|r|s|l|d]; try discriminate; try reflexivity.
  destruct s; [discriminate | reflexivity].
Qed.

Lemma non_list_features_escape_witness :
  truthy (JStr "none") = true
  /\ get_precinct_info
       (Services (fun _ => Found dallas)
          (fun _ _ => Json (JDict [("features", JStr "none")])))
       main_street []
     = (Raise TypeError, both_calls main_street dallas).
Proof.
  split.
  - reflexivity.
  - apply (non_list_features_escape
             (Services (fun _ => Found dallas)
                (fun _ _ => Json (JDict [("features", JStr "none")])))
             main_street dallas [("features", JStr "none")] (JStr "none") []);
      reflexivity.
Defined.

(** X7: whatever attributes the first feature carries, when the formatter
    returns a text for them the form shows exactly that text in the
    "Precinct Information" dialog, after the two calls and with no error
    dialog. *)
Theorem formatted_attributes_displayed
    (w : services) (gui : form) (loc : location) (body feature : dict)
    (attributes : json) (others : list json) (results : string) (t : trace) :
  blank_field gui = false ->
  geocode w (submitted_address gui) = Found loc ->
  http_get w arcgis_url (query_params (latitude loc) (longitude loc))
  = Json (JDict body) ->
  lookup body "features" = Some (JList (JDict feature :: others)) ->
  lookup feature "attributes" = Some attributes ->
  format_results attributes = Ok results ->
  get_precinct_info w gui t
  = (Ok tt,
     (t ++ both_calls gui loc
        ++ [ShowInfo "Precinct Information" results])%list).
Proof.
  intros Hfilled Hgeo Hhttp Hfeatures Hattributes Hformat.
  rewrite (get_precinct_info_answered w gui loc _ t Hfilled Hgeo Hhttp).
  unfold first_attributes, get. rewrite Hfeatures. simpl.
  rewrite Hattributes, Hformat. reflexivity.
Qed.

Lemma formatted_attributes_displayed_witness :
  format_results (JDict [("PRECINCT", JInt 5)])
  = Ok (layout "5" "Not Found" "Address Not Found" "City Not Found"
          "State Not Found" "ZIP Not Found" "Phone Not Found"
          (website_url "5"))
  /\ get_precinct_info
       (Services (fun _ => Found dallas)
          (fun _ _ =>
             Json (JDict
               [("features",
                 JList [JDict [("attributes", JDict [("PRECINCT", JInt 5)])]])])))
       main_street []
     = (Ok tt,
        (both_calls main_street dallas
           ++ [ShowInfo "Precinct Information"
                 (layout "5" "Not Found" "Address Not Found" "City Not Found"
                    "State Not Found" "ZIP Not Found" "Phone Not Found"
                    (website_url "5"))])%list).
Proof.
  split.
  - reflexivity.
  - apply (formatted_attributes_displayed
             (Services (fun _ => Found dallas)
                (fun _ _ =>
                   Json (JDict
                     [("features",
                       JList [JDict [("attributes",
                                      JDict [("PRECINCT", JInt 5)])]])])))
             main_street dallas
             [("features",
               JList [JDict [("attributes", JDict [("PRECINCT", JInt 5)])]])]
             [("attributes", JDict [("PRECINCT", JInt 5)])]
             (JDict [("PRECINCT", JInt 5)]) []
             (layout "5" "Not Found" "Address Not Found" "City Not Found"
                "State Not Found" "ZIP Not Found" "Phone Not Found"
                (website_url "5")) []);
      reflexivity.
Defined.

(** X8: when the first feature's [attributes] entry is not an object (null,
    a list, a string), the lookup still returns it, but the formatter's
    first [get] raises AttributeError, which escapes the form after the two
    calls with no dialog shown. *)
Theorem non_object_attributes_escape
    (w : services) (gui : form) (loc : location) (body feature : dict)
    (attributes : json) (others : list json) (t : trace) :
  blank_field gui = false ->
  geocode w (submitted_address gui) = Found loc ->
  http_get w arcgis_url (query_params (latitude loc) (longitude loc))
  = Json (JDict body) ->
  lookup body "features" = Some (JList (JDict feature :: others)) ->
  lookup feature "attributes" = Some attributes ->
  is_object attributes = false ->
  fst (query_precinct w (strip (street_entry gui)) (strip (city_entry gui))
         (strip (state_entry gui)) (strip (zip_entry gui)) t)
  = Ok attributes
  /\ get_precinct_info w gui t
     = (Raise AttributeError, (t ++ both_calls gui loc)%list).
Proof.
  intros Hfilled Hgeo Hhttp Hfeatures Hattributes Hobject.
  split.
  - rewrite (query_precinct_first_feature w _ _ _ _ loc body feature
               attributes others t Hgeo Hhttp Hfeatures Hattributes).
    reflexivity.
  - rewrite (get_precinct_info_answered w gui loc _ t Hfilled Hgeo Hhttp).
    unfold first_attributes, get. rewrite Hfeatures. simpl.
    rewrite Hattributes.
    destruct attributes; try discriminate; reflexivity.
Qed.

Lemma non_object_attributes_escape_witness :
  is_object JNull = false
  /\ get_precinct_info
       (Services (fun _ => Found dallas)
          (fun _ _ =>
             Json (JDict
               [("features", JList [JDict [("attributes", JNull)]])])))
       main_street []
     = (Raise AttributeError, both_calls main_street dallas).
Proof.
  split.
  - reflexivity.
  - apply (non_object_attributes_escape
             (Services (fun _ => Found dallas)
                (fun _ _ =>
                   Json (JDict
                     [("features", JList [JDict [("attributes", JNull)]])])))
             main_street dallas
             [("features", JList [JDict [("attributes", JNull)]])]
             [("attributes", JNull)] JNull [] []);
      reflexivity.
Defined.

(** ** Further properties of the summary *)

Lemma as_strings_filter_truthy (values : list json) :
  as_strings (filter truthy values)
  = if forallb joinable values then Ok (flat_map text_of values)
    else Raise TypeError.
Proof.
  induction values as [|v values IH]; simpl.
  - reflexivity.
  - destruct v as [ |b|n|r|s|l|d]; simpl.
    + exact IH.
    + destruct b; simpl; [reflexivity | exact IH].
    + destruct (n =? 0)%Z; simpl; [exact IH | reflexivity].
    + destruct ((r =? "0.0") || (r =? "-0.0")); simpl;
        [exact IH | reflexivity].
    + destruct (s =? ""); simpl; [exact IH|].
      rewrite IH. destruct (forallb joinable values); reflexivity.
    + destruct l; simpl; [exact IH | reflexivity].
    + destruct d; simpl; [exact IH | reflexivity].
Qed.

(** The formatter on any dict: the name join decides between a summary and
    TypeError; every field of the summary is read off the dict. *)
Lemma format_results_any_dict (d : dict) :
  format_results (JDict d)
  = if name_joinable d then
      Ok (layout
            match get_or d "PRECINCT" JNull with
            | JNull => "Not Found"
            | v => str v
            end
            (let name :=
               strip (join " "
                        (flat_map text_of
                           [get_or d "TITLE1" (JStr "");
                            get_or d "FIRSTNAME1" (JStr "");
                            get_or d "LASTNAME1" (JStr "")])) in
             if name =? "" then "Not Found" else name)
            (str (get_or d "ADDRESS1" (JStr "Address Not Found")))
            (str (get_or d "CITY1" (JStr "City Not Found")))
            (str (get_or d "STATE1" (JStr "State Not Found")))
            (str (get_or d "ZIP1" (JStr "ZIP Not Found")))
            (str (get_or d "TEL1" (JStr "Phone Not Found")))
            match get_or d "PRECINCT" JNull with
            | JNull => "Website Not Found"
            | v => website_url (str v)
            end)
    else Raise TypeError.
Proof.
  unfold format_results. rewrite !get_dict.
  unfold join_values. rewrite as_strings_filter_truthy.
  unfold name_joinable. simpl forallb. rewrite andb_true_r, andb_assoc.
  destruct (joinable (get_or d "TITLE1" (JStr ""))
            && joinable (get_or d "FIRSTNAME1" (JStr ""))
            && joinable (get_or d "LASTNAME1" (JStr ""))).
  - destruct (get_or d "PRECINCT" JNull); reflexivity.
  - destruct (get_or d "PRECINCT" JNull); reflexivity.
Qed.

(** C10, as stated, fails: with TEL1 present and null but a number for
    TITLE1, the name join raises TypeError before the contact fields are
    read, so no summary is built and nothing is rendered for TEL1. *)
Lemma numeric_title_renders_nothing :
  lookup [("TITLE1", JInt 5); ("TEL1", JNull)] "TEL1" = Some JNull
  /\ format_results (JDict [("TITLE1", JInt 5); ("TEL1", JNull)])
     = Raise TypeError.
Proof. split; reflexivity. Qed.

(** C10, amended: on a mapping whose TITLE1, FIRSTNAME1 and LASTNAME1 values
    can be joined (each is absent, a string, or a value that counts as
    false), an ADDRESS1, CITY1, STATE1, ZIP1 or TEL1 that is present with a
    null value is rendered as the text "None" in its place in the summary;
    the "Not Found" placeholder is not used for it. *)
Theorem null_contact_field_renders_None (d : dict) :
  name_joinable d = true ->
  exists number name address city state zip phone website : string,
    format_results (JDict d)
    = Ok (layout number name address city state zip phone website)
    /\ (lookup d "ADDRESS1" = Some JNull -> address = "None")
    /\ (lookup d "CITY1" = Some JNull -> city = "None")
    /\ (lookup d "STATE1" = Some JNull -> state = "None")
    /\ (lookup d "ZIP1" = Some JNull -> zip = "None")
    /\ (lookup d "TEL1" = Some JNull -> phone = "None").
Proof.
  intros Hname.
  eexists _, _, _, _, _, _, _, _.
  rewrite format_results_any_dict, Hname.
  split; [reflexivity|].
  repeat split; intros H; rewrite (get_or_present d _ _ _ H); reflexivity.
Qed.

Lemma null_contact_field_renders_None_witness :
  name_joinable [("TITLE1", JInt 0); ("PRECINCT", JStr "3"); ("TEL1", JNull)]
  = true
  /\ exists number name address city state zip website : string,
      format_results
        (JDict [("TITLE1", JInt 0); ("PRECINCT", JStr "3"); ("TEL1", JNull)])
      = Ok (layout number name address city state zip "None" website).
Proof.
  split.
  - reflexivity.
  - destruct (null_contact_field_renders_None
                [("TITLE1", JInt 0); ("PRECINCT", JStr "3"); ("TEL1", JNull)]
                eq_refl)
      as (number & name & address & city & state & zip & phone & website
          & E & _ & _ & _ & _ & Hphone).
    rewrite (Hphone eq_refl) in E.
    exists number, name, address, city, state, zip, website. exact E.
Defined.

(** X9: the formatter can fail in two ways only.  On a value that is not
    an object it raises AttributeError.  On an object it raises TypeError
    exactly when TITLE1, FIRSTNAME1 or LASTNAME1 holds a value that counts
    as true and is not a string; otherwise it returns a summary.  No missing
    or null attribute ever makes it fail. *)
Theorem format_results_failures (precinct_info : json) :
  match precinct_info with
  | JDict d =>
      if name_joinable d then
        exists results : string, format_results precinct_info = Ok results
      else format_results precinct_info = Raise TypeError
  | _ => format_results precinct_info = Raise AttributeError
  end.
Proof.
  destruct precinct_info as [ |b|n|r|s|l|d]; try reflexivity.
  rewrite format_results_any_dict.
  destruct (name_joinable d); [eexists|]; reflexivity.
Qed.

(** X10: the precinct line and the website line always agree.  With
    PRECINCT absent or null they read "Not Found" and "Website Not Found";
    with any other value, those that count as false such as 0 included,
    both carry the text [str] gives for it. *)
Theorem precinct_line_and_website_agree (d : dict) :
  name_joinable d = true ->
  exists name address city state zip phone : string,
    format_results (JDict d)
    = Ok match lookup d "PRECINCT" with
         | None | Some JNull =>
             layout "Not Found" name address city state zip phone
               "Website Not Found"
         | Some v =>
             layout (str v) name address city state zip phone
               (website_url (str v))
         end.
Proof.
  intros Hname.
  exists (let name :=
            strip (join " "
                     (flat_map text_of
                        [get_or d "TITLE1" (JStr "");
                         get_or d "FIRSTNAME1" (JStr "");
                         get_or d "LASTNAME1" (JStr "")])) in
          if name =? "" then "Not Found" else name),
    (str (get_or d "ADDRESS1" (JStr "Address Not Found"))),
    (str (get_or d "CITY1" (JStr "City Not Found"))),
    (str (get_or d "STATE1" (JStr "State Not Found"))),
    (str (get_or d "ZIP1" (JStr "ZIP Not Found"))),
    (str (get_or d "TEL1" (JStr "Phone Not Found"))).
  rewrite format_results_any_dict, Hname.
  destruct (lookup d "PRECINCT") as [v|] eqn:E.
  - rewrite (get_or_present d _ _ _ E). destruct v; reflexivity.
  - rewrite (get_or_absent d _ _ E). reflexivity.
Qed.

Lemma precinct_line_and_website_agree_witness :
  name_joinable [("PRECINCT", JInt 0)] = true
  /\ exists name address city state zip phone : string,
      format_results (JDict [("PRECINCT", JInt 0)])
      = Ok (layout "0" name address city state zip phone
              "https://www.dallascounty.org/government/jpcourts/0/").
Proof.
  split.
  - reflexivity.
  - exact (precinct_line_and_website_agree [("PRECINCT", JInt 0)] eq_refl).
Defined.

(** X11: the summary depends on the nine named attributes only: two
    mappings that agree on them, whatever else they hold and in whatever
    order, are formatted alike. *)
Theorem other_attributes_ignored (d d' : dict) :
  (forall key, In key summary_keys -> lookup d key = lookup d' key) ->
  format_results (JDict d) = format_results (JDict d').
Proof.
  intros Hsame.
  assert (Hget : forall key default,
             In key summary_keys ->
             get (JDict d) key default = get (JDict d') key default).
  { intros key default Hin. unfold get. rewrite (Hsame key Hin). reflexivity. }
  unfold format_results.
  rewrite !Hget by (simpl; tauto).
  reflexivity.
Qed.

Lemma other_attributes_ignored_witness :
  format_results
    (JDict [("OBJECTID", JInt 7); ("TEL1", JStr "214-555-0100");
            ("PRECINCT", JStr "3")])
  = format_results
      (JDict [("PRECINCT", JStr "3"); ("TEL1", JStr "214-555-0100");
              ("Shape__Area", JFloat "1.5")]).
Proof.
  apply (other_attributes_ignored
           [("OBJECTID", JInt 7); ("TEL1", JStr "214-555-0100");
            ("PRECINCT", JStr "3")]
           [("PRECINCT", JStr "3"); ("TEL1", JStr "214-555-0100");
            ("Shape__Area", JFloat "1.5")]).
  intros key Hin. simpl in Hin.
  repeat (destruct Hin as [<-|Hin]; [reflexivity|]).
  contradiction.
Defined.

(** X12: a contact attribute that is present is rendered as [str] of its
    value, whatever the value: an empty string gives an empty field and a
    number its decimal text.  The "Not Found" placeholders stand in for
    absent keys only. *)
Theorem present_contact_field_rendered (d : dict) :
  name_joinable d = true ->
  exists number name address city state zip phone website : string,
    format_results (JDict d)
    = Ok (layout number name address city state zip phone website)
    /\ (forall v, lookup d "ADDRESS1" = Some v -> address = str v)
    /\ (forall v, lookup d "CITY1" = Some v -> city = str v)
    /\ (forall v, lookup d "STATE1" = Some v -> state = str v)
    /\ (forall v, lookup d "ZIP1" = Some v -> zip = str v)
    /\ (forall v, lookup d "TEL1" = Some v -> phone = str v).
Proof.
  intros Hname.
  eexists _, _, _, _, _, _, _, _.
  rewrite format_results_any_dict, Hname.
  split; [reflexivity|].
  repeat split; intros v H; rewrite (get_or_present d _ _ _ H); reflexivity.
Qed.

Lemma present_contact_field_rendered_witness :
  name_joinable [("ADDRESS1", JStr ""); ("ZIP1", JInt 75201)] = true
  /\ exists number name city state phone website : string,
      format_results (JDict [("ADDRESS1", JStr ""); ("ZIP1", JInt 75201)])
      = Ok (layout number name "" city state "75201" phone website).
Proof.
  split.
  - reflexivity.
  - destruct (present_contact_field_rendered
                [("ADDRESS1", JStr ""); ("ZIP1", JInt 75201)] eq_refl)
      as (number & name & address & city & state & zip & phone & website
          & E & Haddress & _ & _ & Hzip & _).
    rewrite (Haddress (JStr "") eq_refl), (Hzip (JInt 75201) eq_refl) in E.
    exists number, name, city, state, phone, website. exact E.
Defined.

(** ** Surrounding whitespace *)

Lemma lstrip_app_blank (a s : string) :
  whitespace_only a = true -> lstrip (a ++ s) = lstrip s.
Proof.
  induction a as [|c a IH]; simpl.
  - reflexivity.
  - destruct (is_space c); [exact IH | discriminate].
Qed.

Lemma rstrip_blank (b : string) : whitespace_only b = true -> rstrip b = "".
Proof.
  induction b as [|c b IH]; simpl.
  - reflexivity.
  - destruct (is_space c); [|discriminate].
    intros H. rewrite (IH H). reflexivity.
Qed.

Lemma rstrip_app_blank (s b : string) :
  whitespace_only b = true -> rstrip (s ++ b) = rstrip s.
Proof.
  intros Hb. induction s as [|c s IH]; simpl.
  - apply rstrip_blank. exact Hb.
  - rewrite IH. reflexivity.
Qed.

Lemma strip_app_blank (s b : string) :
  whitespace_only b = true -> strip (s ++ b) = strip s.
Proof.
  intros Hb. unfold strip. induction s as [|c s IH]; simpl.
  - rewrite (proj2 (lstrip_empty_iff b) Hb). reflexivity.
  - destruct (is_space c).
    + exact IH.
    + change (String c (s ++ b)) with (String c s ++ b).
      apply rstrip_app_blank. exact Hb.
Qed.

(** Whitespace around a text does not survive trimming. *)
Lemma strip_padded (a s b : string) :
  whitespace_only a = true -> whitespace_only b = true ->
  strip (a ++ s ++ b) = strip s.
Proof.
  intros Ha Hb.
  transitivity (strip (s ++ b)).
  - unfold strip. rewrite (lstrip_app_blank a (s ++ b) Ha). reflexivity.
  - apply strip_app_blank. exact Hb.
Qed.

(** X13: whitespace typed before or after the text of any field changes
    nothing: the padded form makes the same calls, with the same address,
    and shows the same dialog as the form without the padding. *)
Theorem surrounding_whitespace_ignored
    (w : services) (gui : form) (a1 b1 a2 b2 a3 b3 a4 b4 : string) (t : trace) :
  whitespace_only a1 = true -> whitespace_only b1 = true ->
  whitespace_only a2 = true -> whitespace_only b2 = true ->
  whitespace_only a3 = true -> whitespace_only b3 = true ->
  whitespace_only a4 = true -> whitespace_only b4 = true ->
  get_precinct_info w
    (Form (a1 ++ street_entry gui ++ b1) (a2 ++ city_entry gui ++ b2)
          (a3 ++ state_entry gui ++ b3) (a4 ++ zip_entry gui ++ b4)) t
  = get_precinct_info w gui t.
Proof.
  intros Ha1 Hb1 Ha2 Hb2 Ha3 Hb3 Ha4 Hb4.
  unfold get_precinct_info. simpl.
  rewrite (strip_padded a1 _ b1 Ha1 Hb1), (strip_padded a2 _ b2 Ha2 Hb2),
    (strip_padded a3 _ b3 Ha3 Hb3), (strip_padded a4 _ b4 Ha4 Hb4).
  reflexivity.
Qed.

Lemma surrounding_whitespace_ignored_witness :
  get_precinct_info mock (Form "  100 Main St " "Dallas " " TX" "75201") []
  = get_precinct_info mock main_street [].
Proof.
  exact (surrounding_whitespace_ignored mock main_street
           "  " " " "" " " " " "" "" "" []
           eq_refl eq_refl eq_refl eq_refl eq_refl eq_refl eq_refl eq_refl).
Defined.

(** ** Every submission, whatever the services answer *)

(** What taking the attributes out of a body can raise. *)
Lemma first_attributes_raises (data : json) (e : exn) :
  first_attributes data = Raise e ->
  e = ValueError "No precinct found."
  \/ e = AttributeError \/ e = TypeError \/ e = KeyError.
Proof.
  unfold first_attributes, get.
  destruct data as [ |b|n|r|s|l|d];
    try (intros H; injection H as <-; tauto).
  destruct (lookup d "features") as [features|]; simpl;
    [|intros H; injection H as <-; tauto].
  destruct (truthy features) eqn:Htruthy;
    [|intros H; injection H as <-; tauto].
  destruct features as [ |b|n|r|s|l|d']; simpl in *; try discriminate;
    try (intros H; injection H as <-; tauto).
  - destruct s; simpl; [discriminate|].
    intros H; injection H as <-; tauto.
  - destruct l as [|first others]; [discriminate|]. simpl.
    unfold item.
    destruct first as [ |b|n|r|s|l|feature];
      try (intros H; injection H as <-; tauto).
    destruct (lookup feature "attributes");
      [discriminate | intros H; injection H as <-; tauto].
Qed.

(** What the formatter can raise. *)
Lemma format_results_raises (precinct_info : json) (e : exn) :
  format_results precinct_info = Raise e ->
  e = AttributeError \/ e = TypeError.
Proof.
  destruct precinct_info as [ |b|n|r|s|l|d];
    try (intros H; injection H as <-; tauto).
  rewrite format_results_any_dict.
  destruct (name_joinable d); [discriminate|].
  intros H; injection H as <-; tauto.
Qed.

(** Each submission goes one of the five ways of [submission]. *)
Lemma get_precinct_info_submission (w : services) (gui : form) :
  submission w gui (fst (get_precinct_info w gui []))
    (snd (get_precinct_info w gui [])).
Proof.
  destruct (blank_field gui) eqn:Hblank.
  - unfold get_precinct_info. rewrite all_stripped, Hblank. simpl.
    apply rejected. exact Hblank.
  - destruct (geocode w (submitted_address gui)) as [text| |loc] eqn:Hgeo.
    + rewrite (get_precinct_info_filled w gui [] Hblank).
      unfold query_precinct, bind, emit. simpl.
      fold (submitted_address gui). rewrite Hgeo. simpl.
      apply geocoding_failed; [exact Hblank|].
      intros loc. rewrite Hgeo. discriminate.
    + rewrite (get_precinct_info_filled w gui [] Hblank).
      unfold query_precinct, bind, emit. simpl.
      fold (submitted_address gui). rewrite Hgeo. simpl.
      apply geocoding_failed; [exact Hblank|].
      intros loc. rewrite Hgeo. discriminate.
    + destruct (http_get w arcgis_url
                  (query_params (latitude loc) (longitude loc)))
        as [text|data] eqn:Hhttp.
      * rewrite (get_precinct_info_filled w gui [] Hblank).
        unfold query_precinct, bind, emit. simpl.
        fold (submitted_address gui). rewrite Hgeo. simpl. rewrite Hhttp.
        simpl.
        exact (query_failed w gui loc _ Hblank Hgeo).
      * rewrite (get_precinct_info_answered w gui loc data [] Hblank Hgeo Hhttp).
        destruct (first_attributes data) as [info|e] eqn:Hfirst.
        -- destruct (format_results info) as [results|e] eqn:Hformat; simpl.
           ++ exact (summarised w gui loc data info results
                       Hblank Hgeo Hhttp Hfirst Hformat).
           ++ apply (crashed w gui loc e Hblank Hgeo).
              destruct (format_results_raises info e Hformat) as [-> | ->];
                discriminate.
        -- destruct (first_attributes_raises data e Hfirst)
             as [-> | He]; simpl.
           ++ exact (query_failed w gui loc _ Hblank Hgeo).
           ++ destruct He as [-> | [-> | ->]]; simpl;
                apply (crashed w gui loc _ Hblank Hgeo); discriminate.
Qed.

(** X14: a submission that returns has shown exactly one dialog, as its
    last event, after whatever calls it made.  A submission that raises has
    shown no dialog, and what escapes is never a ValueError: the form turns
    every ValueError of the lookup into a "Lookup Error" dialog. *)
Theorem one_dialog_or_escape (w : services) (gui : form) :
  match fst (get_precinct_info w gui []) with
  | Ok _ =>
      exists (calls : list event) (dialog : event),
        snd (get_precinct_info w gui []) = (calls ++ [dialog])%list
        /\ is_dialog dialog = true /\ dialogs calls = []
  | Raise e =>
      dialogs (snd (get_precinct_info w gui [])) = []
      /\ forall message, e <> ValueError message
  end.
Proof.
  destruct (get_precinct_info_submission w gui).
  - exists [], (ShowError "Input Error" "Please fill in all address fields.").
    repeat split.
  - exists [Geocode (submitted_address gui)], (ShowError "Lookup Error" text).
    repeat split.
  - exists (both_calls gui loc), (ShowError "Lookup Error" text).
    repeat split.
  - exists (both_calls gui loc), (ShowInfo "Precinct Information" results).
    repeat split.
  - split; [reflexivity | assumption].
Qed.

(** X15: the calls a submission makes are fixed by the form and the
    geocoder's answer: none when a field is blank; the geocoder alone, asked
    about the trimmed address, when it finds no location or fails; the
    geocoder and then one query to the fixed ArcGIS URL with the found
    point's coordinates otherwise. *)
Theorem network_calls_of_submission (w : services) (gui : form) :
  network_calls (snd (get_precinct_info w gui []))
  = if blank_field gui then []
    else match geocode w (submitted_address gui) with
         | Found loc =>
             [Geocode (submitted_address gui);
              HttpGet arcgis_url
                (query_params (latitude loc) (longitude loc))]
         | _ => [Geocode (submitted_address gui)]
         end.
Proof.
  destruct (get_precinct_info_submission w gui)
    as [Hblank | text Hblank Hgeo | loc text Hblank Hgeo
        | loc data info results Hblank Hgeo _ _ _ | loc e Hblank Hgeo _];
    rewrite Hblank; try rewrite Hgeo; try reflexivity.
  destruct (geocode w (submitted_address gui)) as [e| |loc]; try reflexivity.
  exfalso. exact (Hgeo loc eq_refl).
Qed.

(** X16: an error dialog shown for a form with a blank field is the
    "Input Error" dialog with the fill-in request, and it is the only event
    of the submission.  An error dialog shown for a form with no blank field
    is titled "Lookup Error" and comes after the geocoder was asked about
    the trimmed address. *)
Theorem error_dialog_titles
    (w : services) (gui : form) (title text : string) :
  In (ShowError title text) (snd (get_precinct_info w gui [])) ->
  if blank_field gui then
    title = "Input Error" /\ text = "Please fill in all address fields."
    /\ snd (get_precinct_info w gui []) = [ShowError title text]
  else
    title = "Lookup Error"
    /\ exists rest : list event,
        snd (get_precinct_info w gui [])
        = Geocode (submitted_address gui) :: rest.
Proof.
  intros Hin.
  destruct (get_precinct_info_submission w gui)
    as [Hblank | text' Hblank _ | loc text' Hblank _
        | loc data info results Hblank _ _ _ _ | loc e Hblank _ _];
    rewrite Hblank; simpl in Hin;
    repeat (destruct Hin as [Hin|Hin]; [try discriminate|]);
    try contradiction.
  - injection Hin as <- <-. repeat split.
  - injection Hin as <- <-. split; [reflexivity|]. eexists. reflexivity.
  - injection Hin as <- <-. split; [reflexivity|]. eexists. reflexivity.
Qed.

Lemma error_dialog_titles_witness :
  In (ShowError "Lookup Error" "No precinct found.")
     (snd (get_precinct_info
             (Services (fun _ => Found dallas)
                       (fun _ _ => Json (JDict [("error", JNull)])))
             main_street []))
  /\ exists rest : list event,
      snd (get_precinct_info
             (Services (fun _ => Found dallas)
                       (fun _ _ => Json (JDict [("error", JNull)])))
             main_street [])
      = Geocode (submitted_address main_street) :: rest.
Proof.
  assert (Hin : In (ShowError "Lookup Error" "No precinct found.")
                  (snd (get_precinct_info
                          (Services (fun _ => Found dallas)
                             (fun _ _ => Json (JDict [("error", JNull)])))
                          main_street []))).
  { simpl. right. right. left. reflexivity. }
  split.
  - exact Hin.
  - exact (proj2 (error_dialog_titles _ _ _ _ Hin)).
Defined.

(** The one shape of body the attributes can be taken from. *)
Lemma first_attributes_ok (data precinct_info : json) :
  first_attributes data = Ok precinct_info ->
  exists (body feature : dict) (others : list json),
    data = JDict body
    /\ lookup body "features" = Some (JList (JDict feature :: others))
    /\ lookup feature "attributes" = Some precinct_info.
Proof.
  unfold first_attributes, get.
  destruct data as [ |b|n|r|s|l|body]; try discriminate.
  destruct (lookup body "features") as [features|] eqn:Hfeatures; simpl;
    [|discriminate].
  destruct (truthy features) eqn:Htruthy; [|discriminate].
  destruct features as [ |b|n|r|s|l|d']; simpl in *; try discriminate.
  - destruct s; discriminate.
  - destruct l as [|first others]; [discriminate|]. simpl.
    unfold item.
    destruct first as [ |b|n|r|s|l|feature]; try discriminate.
    destruct (lookup feature "attributes") as [v|] eqn:Hattributes;
      [|discriminate].
    intros H. injection H as <-.
    exists body, feature, others.
    split; [reflexivity|]. split; [exact Hfeatures | exact Hattributes].
Qed.

(** X17: a summary dialog is only ever shown for attributes that were
    really returned: it is titled "Precinct Information", the geocoder found
    a location, the body of the feature-service answer for that point is an
    object whose [features] list starts with an object carrying
    [attributes], and the text is the formatter's result on those. *)
Theorem summary_dialog_origin
    (w : services) (gui : form) (title text : string) :
  In (ShowInfo title text) (snd (get_precinct_info w gui [])) ->
  title = "Precinct Information"
  /\ blank_field gui = false
  /\ exists (loc : location) (body feature : dict) (others : list json)
            (precinct_info : json),
      geocode w (submitted_address gui) = Found loc
      /\ http_get w arcgis_url (query_params (latitude loc) (longitude loc))
         = Json (JDict body)
      /\ lookup body "features" = Some (JList (JDict feature :: others))
      /\ lookup feature "attributes" = Some precinct_info
      /\ format_results precinct_info = Ok text.
Proof.
  intros Hin.
  destruct (get_precinct_info_submission w gui)
    as [Hblank | text' Hblank _ | loc text' Hblank _
        | loc data info results Hblank Hgeo Hhttp Hfirst Hformat
        | loc e Hblank _ _];
    simpl in Hin;
    repeat (destruct Hin as [Hin|Hin]; [try discriminate|]);
    try contradiction.
  injection Hin as <- <-.
  repeat split; [exact Hblank|].
  destruct (first_attributes_ok data info Hfirst)
    as (body & feature & others & -> & Hfeatures & Hattributes).
  exists loc, body, feature, others, info. repeat split; assumption.
Qed.

Lemma summary_dialog_origin_witness :
  In (ShowInfo "Precinct Information" jane_doe_summary)
     (snd (get_precinct_info mock main_street []))
  /\ blank_field main_street = false.
Proof.
  assert (Hin : In (ShowInfo "Precinct Information" jane_doe_summary)
                  (snd (get_precinct_info mock main_street []))).
  { simpl. right. right. left. reflexivity. }
  split.
  - exact Hin.
  - exact (proj1 (proj2 (summary_dialog_origin _ _ _ _ Hin))).
Defined.

(** X18: the lookup does no validation or trimming of its own: it asks the
    geocoder about the four texts exactly as given.  And it returns a value
    only when the geocoder found a location and the body of the answer is
    an object whose [features] list starts with an object carrying
    [attributes]: the value is that entry, and both calls were made. *)
Theorem query_precinct_returns_only_attributes
    (w : services) (street_address city state zip_code : string)
    (precinct_info : json) (t : trace) :
  fst (query_precinct w street_address city state zip_code t)
  = Ok precinct_info ->
  exists (loc : location) (body feature : dict) (others : list json),
    geocode w (full_address street_address city state zip_code) = Found loc
    /\ http_get w arcgis_url (query_params (latitude loc) (longitude loc))
       = Json (JDict body)
    /\ lookup body "features" = Some (JList (JDict feature :: others))
    /\ lookup feature "attributes" = Some precinct_info
    /\ snd (query_precinct w street_address city state zip_code t)
       = (t ++ [Geocode (full_address street_address city state zip_code);
                HttpGet arcgis_url
                  (query_params (latitude loc) (longitude loc))])%list.
Proof.
  destruct (geocode w (full_address street_address city state zip_code))
    as [text| |loc] eqn:Hgeo.
  - unfold query_precinct, bind, emit. simpl. rewrite Hgeo. discriminate.
  - rewrite (query_precinct_no_location w _ _ _ _ t Hgeo). discriminate.
  - destruct (http_get w arcgis_url
                (query_params (latitude loc) (longitude loc)))
      as [text|data] eqn:Hhttp.
    + unfold query_precinct, bind, emit. simpl. rewrite Hgeo. simpl.
      rewrite Hhttp. discriminate.
    + rewrite (query_precinct_answered w _ _ _ _ loc data t Hgeo Hhttp).
      fold (first_attributes data). simpl. intros Hfirst.
      destruct (first_attributes_ok data precinct_info Hfirst)
        as (body & feature & others & -> & Hfeatures & Hattributes).
      exists loc, body, feature, others. repeat split; assumption.
Qed.

Lemma query_precinct_returns_only_attributes_witness :
  fst (query_precinct mock "" "" "" "" []) = Ok jane_doe
  /\ exists (loc : location) (body feature : dict) (others : list json),
      geocode mock (full_address "" "" "" "") = Found loc
      /\ http_get mock arcgis_url
           (query_params (latitude loc) (longitude loc))
         = Json (JDict body)
      /\ lookup body "features" = Some (JList (JDict feature :: others))
      /\ lookup feature "attributes" = Some jane_doe
      /\ snd (query_precinct mock "" "" "" "" [])
         = [Geocode ", ,  ";
            HttpGet arcgis_url (query_params (latitude loc) (longitude loc))].
Proof.
  split.
  - reflexivity.
  - exact (query_precinct_returns_only_attributes mock "" "" "" ""
             jane_doe [] eq_refl).
Defined.
